(** * A terminal chatbot: safe calculator, reply rules and memory store

    Shallow embedding of [chatbot_sample.py].  The program is a few pure
    functions over strings plus one mutable object, [Chatbot.memory], and
    the files it is saved to.  Python exceptions are an error result;
    [self.memory] and the file system are threaded as explicit state.

    What the interpreter supplies (the parser behind [ast.parse], the C
    library's transcendental functions, [repr] of a float, ...) is an
    interface, [Host]; everything the program itself decides is a
    definition below.

    Strings are byte strings holding the UTF-8 encoding of the Python text.
    The character tests ([str.strip], [str.lower], the regular expression)
    are the ASCII ones; the bytes of a non-ASCII character are left alone. *)

From Stdlib Require Import ZArith String Ascii List Bool Lia SpecFloat DecimalString.
From stdpp Require Import gmap strings.
Import ListNotations.

Set Warnings "-register-all".

(** String concatenation unfolds on a literal prefix. *)
Arguments String.append !_ _ / : simpl nomatch.

(** ** Exceptions *)

Inductive exn_kind :=
  | SyntaxError | ValueError | TypeError | ZeroDivisionError | OverflowError
  | AttributeError | IndexError | OSError | JSONDecodeError | UnicodeError
  | RecursionError.

(** An exception object: its class and [str(e)]. *)
Record exn := Exn { exn_class : exn_kind; exn_str : string }.

Inductive result (A : Type) :=
  | Ok (a : A)
  | Raise (e : exn).
Arguments Ok {A} a.
Arguments Raise {A} e.

Definition bind {A B} (r : result A) (k : A -> result B) : result B :=
  match r with
  | Ok a => k a
  | Raise e => Raise e
  end.

Notation "'let*' x ':=' r 'in' k" := (bind r (fun x => k))
  (at level 10, x name, r at level 100, k at level 200).

Definition raises {A} (r : result A) : Prop := exists e, r = Raise e.

Definition raises_kind {A} (k : exn_kind) (r : result A) : Prop :=
  exists msg, r = Raise (Exn k msg).

Section MapM.
Context {A B : Type} (f : A -> result B).

(** A list comprehension [[f(a) for a in l]]: left to right, the first
    exception ends it. *)
Fixpoint mapM (l : list A) : result (list B) :=
  match l with
  | [] => Ok []
  | a :: l' => let* b := f a in let* bs := mapM l' in Ok (b :: bs)
  end.
End MapM.

(** ** Floats: IEEE 754 binary64 *)

Definition float := spec_float.

Definition f_add : float -> float -> float := SFadd 53 1024.
Definition f_sub : float -> float -> float := SFsub 53 1024.
Definition f_mul : float -> float -> float := SFmul 53 1024.
Definition f_div : float -> float -> float := SFdiv 53 1024.
Definition f_sqrt : float -> float := SFsqrt 53 1024.
Definition f_neg : float -> float := SFopp.

Definition f_is_nan (x : float) : bool :=
  match x with S754_nan => true | _ => false end.
Definition f_is_inf (x : float) : bool :=
  match x with S754_infinity _ => true | _ => false end.
Definition f_is_zero (x : float) : bool :=
  match x with S754_zero _ => true | _ => false end.
Definition f_is_finite (x : float) : bool :=
  match x with S754_zero _ | S754_finite _ _ _ => true | _ => false end.
Definition f_is_pos (x : float) : bool :=
  match x with S754_infinity false | S754_finite false _ _ => true | _ => false end.

(** The nearest double to an integer, ties to even. *)
Definition float_of_Z (z : Z) : float := binary_normalize 53 1024 z 0 false.

(** The nearest double to [a / b] for positive [a] and [b], with the sign
    [neg]. *)
Definition float_of_ratio (neg : bool) (a b : Z) : float :=
  let '(q, e, loc) := SFdiv_core_binary 53 1024 a 0 b 0 in
  binary_round_aux 53 1024 neg q e loc.

(** [floor] of a finite double, as an integer. *)
Definition float_floor (x : float) : option Z :=
  match x with
  | S754_zero _ => Some 0%Z
  | S754_finite s m e =>
      let n := if s then Z.neg m else Z.pos m in
      Some (if (0 <=? e)%Z then Z.shiftl n e else Z.shiftr n (- e))
  | _ => None
  end.

Definition float_ceil (x : float) : option Z :=
  option_map Z.opp (float_floor (f_neg x)).

Definition math_pi : float := S754_finite false 7074237752028440 (-51).
Definition math_e : float := S754_finite false 6121026514868073 (-51).
Definition math_tau : float := S754_finite false 7074237752028440 (-50).

(** ** The expression tree of [ast]

    [operator] and [unaryop] are the classes an [op] field can hold;
    [node_class] lists the expression classes [_eval] has no branch for. *)

Module Ast.

Inductive operator :=
  | Add | Sub | Mult | MatMult | Div | Mod | Pow
  | LShift | RShift | BitOr | BitXor | BitAnd | FloorDiv.

Inductive unaryop := Invert | Not | UAdd | USub.

Inductive constant :=
  | CInt (z : Z)
  | CFloat (x : float)
  | CComplex (re im : float)
  | CStr (s : string)
  | CBytes (s : string)
  | CBool (b : bool)
  | CNone
  | CEllipsis.

Inductive node_class :=
  | BoolOp | NamedExpr | Lambda | IfExp | Dict | SetDisplay | ListComp | SetComp
  | DictComp | GeneratorExp | Await | Yield | YieldFrom | Compare
  | FormattedValue | JoinedStr | Attribute | Subscript | Starred | ListDisplay
  | Tuple | Slice.

Inductive expr :=
  | Constant (value : constant)
  | BinOp (lhs : expr) (op : operator) (rhs : expr)
  | UnaryOp (op : unaryop) (operand : expr)
  | Call (func : expr) (args : list expr) (keywords : list (option string * expr))
  | Name (id : string)
  | Node (cls : node_class) (children : list expr).

End Ast.
Export Ast.

(** ** Values of the calculator *)

Inductive builtin :=
  | math_sin | math_cos | math_tan | math_asin | math_acos | math_atan
  | math_sqrt | math_log | math_log10 | math_exp | math_floor | math_ceil.

Inductive value :=
  | VInt (z : Z)
  | VFloat (x : float)
  | VComplex (re im : float)
  | VBuiltin (f : builtin).

Definition type_name (v : value) : string :=
  match v with
  | VInt _ => "int"
  | VFloat _ => "float"
  | VComplex _ _ => "complex"
  | VBuiltin _ => "builtin_function_or_method"
  end.

(** ** Values of the memory

    [Chatbot.memory] starts as a dict of a name and a history, and [load]
    replaces it by whatever [json.load] returns.  A dict keeps its keys in
    insertion order. *)

Inductive json :=
  | JNull
  | JBool (b : bool)
  | JInt (z : Z)
  | JFloat (x : float)
  | JStr (s : string)
  | JList (items : list json)
  | JDict (pairs : list (string * json)).

(** The function objects of the [operator] module held by [ALLOWED_OPS]. *)
Inductive opfun :=
  | op_add_f | op_sub_f | op_mul_f | op_truediv_f | op_pow_f
  | op_neg_f | op_pos_f | op_mod_f.

(** ** What the interpreter supplies *)

Class Host := {
  (** [ast.parse(s, mode="eval").body], or the [SyntaxError] *)
  ast_parse : string -> result expr;
  (** the C library *)
  c_sin : float -> float;
  c_cos : float -> float;
  c_tan : float -> float;
  c_asin : float -> float;
  c_acos : float -> float;
  c_atan : float -> float;
  c_log : float -> float;
  c_log10 : float -> float;
  c_exp : float -> float;
  (** [x ** y] and [x % y] (for [y] not zero) on floats *)
  float_pow : float -> float -> result value;
  float_rem : float -> float -> float;
  (** [+ - * / **] when an operand is complex *)
  complex_arith : operator -> value -> value -> result value;
  (** [repr] of a float, of a complex and of a list or dict *)
  float_repr : float -> string;
  complex_repr : float -> float -> string;
  container_repr : json -> string;
  (** whether [open(path, "w")] succeeds *)
  fs_writable : string -> bool;
}.

Section Calculator.
Context `{Host}.

(** ** The [operator] module on calculator values *)

Definition int_as_double (z : Z) : result float :=
  let x := float_of_Z z in
  if f_is_inf x then Raise (Exn OverflowError "int too large to convert to float")
  else Ok x.

Definition unsupported_operands (sym : string) (a b : value) : exn :=
  Exn TypeError ("unsupported operand type(s) for " +:+ sym +:+ ": '"
                 +:+ type_name a +:+ "' and '" +:+ type_name b +:+ "'").

(** Binary arithmetic by operand types: two ints stay exact, an int next
    to a float is converted first, a complex operand goes to
    [on_complex], and a function object is no number. *)
Definition numeric_binop (sym : string)
    (on_int : Z -> Z -> result value)
    (on_float : float -> float -> result value)
    (on_complex : value -> value -> result value)
    (a b : value) : result value :=
  match a, b with
  | VBuiltin _, _ | _, VBuiltin _ => Raise (unsupported_operands sym a b)
  | VInt x, VInt y => on_int x y
  | VInt x, VFloat y => let* x' := int_as_double x in on_float x' y
  | VFloat x, VInt y => let* y' := int_as_double y in on_float x y'
  | VFloat x, VFloat y => on_float x y
  | _, _ => on_complex a b
  end.

Definition op_add : value -> value -> result value :=
  numeric_binop "+" (fun x y => Ok (VInt (x + y)))
    (fun x y => Ok (VFloat (f_add x y))) (complex_arith Add).

Definition op_sub : value -> value -> result value :=
  numeric_binop "-" (fun x y => Ok (VInt (x - y)))
    (fun x y => Ok (VFloat (f_sub x y))) (complex_arith Sub).

Definition op_mul : value -> value -> result value :=
  numeric_binop "*" (fun x y => Ok (VInt (x * y)))
    (fun x y => Ok (VFloat (f_mul x y))) (complex_arith Mult).

(** [int / int]: the correctly rounded quotient. *)
Definition long_true_divide (a b : Z) : result value :=
  if (b =? 0)%Z then Raise (Exn ZeroDivisionError "division by zero")
  else
    let negate := xorb (a <? 0)%Z (b <? 0)%Z in
    if (a =? 0)%Z then Ok (VFloat (S754_zero negate))
    else
      let x := float_of_ratio negate (Z.abs a) (Z.abs b) in
      if f_is_inf x
      then Raise (Exn OverflowError "integer division result too large for a float")
      else Ok (VFloat x).

Definition float_div (x y : float) : result value :=
  if f_is_zero y then Raise (Exn ZeroDivisionError "float division by zero")
  else Ok (VFloat (f_div x y)).

Definition op_truediv : value -> value -> result value :=
  numeric_binop "/" long_true_divide float_div (complex_arith Div).

(** [int % int] takes the sign of the divisor, as [Z.modulo] does. *)
Definition long_mod (a b : Z) : result value :=
  if (b =? 0)%Z then Raise (Exn ZeroDivisionError "integer division or modulo by zero")
  else Ok (VInt (a mod b)).

Definition float_mod (x y : float) : result value :=
  if f_is_zero y then Raise (Exn ZeroDivisionError "float modulo")
  else Ok (VFloat (float_rem x y)).

Definition op_mod : value -> value -> result value :=
  numeric_binop "%" long_mod float_mod
    (fun a b => Raise (unsupported_operands "%" a b)).

(** [int ** int] is exact for an exponent that is not negative and a
    float power otherwise. *)
Definition long_pow (a b : Z) : result value :=
  if (b <? 0)%Z
  then let* x := int_as_double a in let* y := int_as_double b in float_pow x y
  else Ok (VInt (a ^ b)).

Definition op_pow : value -> value -> result value :=
  numeric_binop "** or pow()" long_pow float_pow (complex_arith Pow).

Definition bad_operand (sym : string) (a : value) : exn :=
  Exn TypeError ("bad operand type for unary " +:+ sym +:+ ": '" +:+ type_name a +:+ "'").

Definition op_neg (a : value) : result value :=
  match a with
  | VInt x => Ok (VInt (- x))
  | VFloat x => Ok (VFloat (f_neg x))
  | VComplex re im => Ok (VComplex (f_neg re) (f_neg im))
  | VBuiltin _ => Raise (bad_operand "-" a)
  end.

Definition op_pos (a : value) : result value :=
  match a with
  | VBuiltin _ => Raise (bad_operand "+" a)
  | _ => Ok a
  end.

Definition arity_error : exn := Exn TypeError "wrong number of arguments".

Definition call_op (f : opfun) (args : list value) : result value :=
  match f, args with
  | op_add_f, [a; b] => op_add a b
  | op_sub_f, [a; b] => op_sub a b
  | op_mul_f, [a; b] => op_mul a b
  | op_truediv_f, [a; b] => op_truediv a b
  | op_pow_f, [a; b] => op_pow a b
  | op_mod_f, [a; b] => op_mod a b
  | op_neg_f, [a] => op_neg a
  | op_pos_f, [a] => op_pos a
  | (op_neg_f | op_pos_f), _ => Raise arity_error
  | _, _ => Raise arity_error
  end.

(** ** The [math] module *)

Definition domain_error : exn := Exn ValueError "math domain error".
Definition range_error : exn := Exn OverflowError "math range error".

(** [PyFloat_AsDouble]: the argument of a [math] function as a double. *)
Definition as_double (v : value) : result float :=
  match v with
  | VInt z => int_as_double z
  | VFloat x => Ok x
  | _ => Raise (Exn TypeError ("must be real number, not " +:+ type_name v))
  end.

(** [math_1]: call the C function and turn a NaN or an infinity that the
    argument does not explain into an exception. *)
Definition math_1 (func : float -> float) (can_overflow : bool) (x : float)
    : result value :=
  let r := func x in
  if f_is_nan r && negb (f_is_nan x) then Raise domain_error
  else if f_is_inf r && f_is_finite x
  then Raise (if can_overflow then range_error else domain_error)
  else Ok (VFloat r).

(** [m_log], [m_log10]: the C logarithm away from its singularities. *)
Definition m_log (func : float -> float) (x : float) : float :=
  match x with
  | S754_finite false _ _ => func x
  | S754_zero _ => S754_infinity true
  | S754_finite true _ _ => S754_nan
  | S754_infinity false => x
  | S754_infinity true => S754_nan
  | S754_nan => x
  end.

(** [_PyLong_Frexp] of a positive integer: [z] is about [x * 2^e] with
    [x] in [[0.5, 1)]. *)
Definition long_frexp (z : Z) : float * Z :=
  let nbits := (Z.log2 z + 1)%Z in
  match binary_normalize 53 1024 z (- nbits) false with
  | S754_finite false 4503599627370496 (-52) =>
      (S754_finite false 4503599627370496 (-53), (nbits + 1)%Z)
  | x => (x, nbits)
  end.

(** [loghelper]: an int too large for a double still has a logarithm. *)
Definition loghelper (func : float -> float) (v : value) : result value :=
  match v with
  | VInt z =>
      if (z <=? 0)%Z then Raise domain_error
      else
        let x := float_of_Z z in
        if f_is_inf x
        then
          let '(m, e) := long_frexp z in
          Ok (VFloat (f_add (m_log func m)
                            (f_mul (m_log func (float_of_Z 2)) (float_of_Z e))))
        else Ok (VFloat (m_log func x))
  | _ => let* x := as_double v in math_1 (m_log func) false x
  end.

Definition cannot_convert (x : float) : exn :=
  if f_is_nan x then Exn ValueError "cannot convert float NaN to integer"
  else Exn OverflowError "cannot convert float infinity to integer".

(** [math.floor], [math.ceil]: an int is returned as it is. *)
Definition math_round (round : float -> option Z) (v : value) : result value :=
  match v with
  | VInt _ => Ok v
  | _ =>
      let* x := as_double v in
      match round x with
      | Some z => Ok (VInt z)
      | None => Raise (cannot_convert x)
      end
  end.

Definition math_unary (f : builtin) (v : value) : result value :=
  match f with
  | math_sin => let* x := as_double v in math_1 c_sin false x
  | math_cos => let* x := as_double v in math_1 c_cos false x
  | math_tan => let* x := as_double v in math_1 c_tan false x
  | math_asin => let* x := as_double v in math_1 c_asin false x
  | math_acos => let* x := as_double v in math_1 c_acos false x
  | math_atan => let* x := as_double v in math_1 c_atan false x
  | math_sqrt => let* x := as_double v in math_1 f_sqrt false x
  | math_exp => let* x := as_double v in math_1 c_exp true x
  | math_log => loghelper c_log v
  | math_log10 => loghelper c_log10 v
  | math_floor => math_round float_floor v
  | math_ceil => math_round float_ceil v
  end.

(** Calling a [math] function on the unpacked [args]: all take one
    argument, [log] also takes a base. *)
Definition call_builtin (f : builtin) (args : list value) : result value :=
  match args with
  | [v] => math_unary f v
  | [v; base] =>
      match f with
      | math_log =>
          let* num := loghelper c_log v in
          let* den := loghelper c_log base in
          op_truediv num den
      | _ => Raise arity_error
      end
  | _ => Raise arity_error
  end.

(** Calling any value found in [ALLOWED_NAMES] on the unpacked [args]. *)
Definition py_call (fn : value) (args : list value) : result value :=
  match fn with
  | VBuiltin f => call_builtin f args
  | _ => Raise (Exn TypeError ("'" +:+ type_name fn +:+ "' object is not callable"))
  end.
End Calculator.

(** ** The allow-lists *)

(** [type(node.op)] for either kind of operator node. *)
Inductive op_class :=
  | BinK (o : operator)
  | UnK (o : unaryop).

(** [ALLOWED_OPS], as the lookup [ALLOWED_OPS.get]. *)
Definition ALLOWED_OPS (k : op_class) : option opfun :=
  match k with
  | BinK Add => Some op_add_f
  | BinK Sub => Some op_sub_f
  | BinK Mult => Some op_mul_f
  | BinK Div => Some op_truediv_f
  | BinK Pow => Some op_pow_f
  | UnK USub => Some op_neg_f
  | UnK UAdd => Some op_pos_f
  | BinK Mod => Some op_mod_f
  | _ => None
  end.

Definition math_constants : gmap string value :=
  list_to_map [("pi", VFloat math_pi); ("e", VFloat math_e); ("tau", VFloat math_tau)].

Definition math_functions : gmap string value :=
  list_to_map
    [("sin", VBuiltin math_sin); ("cos", VBuiltin math_cos); ("tan", VBuiltin math_tan);
     ("asin", VBuiltin math_asin); ("acos", VBuiltin math_acos); ("atan", VBuiltin math_atan);
     ("sqrt", VBuiltin math_sqrt); ("log", VBuiltin math_log); ("log10", VBuiltin math_log10);
     ("exp", VBuiltin math_exp); ("floor", VBuiltin math_floor); ("ceil", VBuiltin math_ceil)].

(** [d1 | d2] keeps the right operand's value for a shared key; stdpp's
    union keeps the left one. *)
Definition ALLOWED_NAMES : gmap string value := math_functions ∪ math_constants.

(** ** [eval_expr] *)

(** [isinstance(node, ast.Num)] and [node.n]: a constant that holds an int,
    a float or a complex, and no bool. *)
Definition Num_n (c : constant) : option value :=
  match c with
  | CInt z => Some (VInt z)
  | CFloat x => Some (VFloat x)
  | CComplex re im => Some (VComplex re im)
  | _ => None
  end.

Definition unsupported : exn := Exn ValueError "Unsupported expression".

Section EvalExpr.
Context `{Host}.

(** The chain of [if]s of the source: a node that fails the test of its
    own branch fails every later one too and reaches the final [raise].
    [node.keywords] is never read. *)
Fixpoint _eval (node : expr) : result value :=
  match node with
  | Constant c =>
      match Num_n c with
      | Some v => Ok v
      | None => Raise unsupported
      end
  | BinOp lhs op rhs =>
      match ALLOWED_OPS (BinK op) with
      | Some f =>
          let* a := _eval lhs in
          let* b := _eval rhs in
          call_op f [a; b]
      | None => Raise unsupported
      end
  | UnaryOp op operand =>
      match ALLOWED_OPS (UnK op) with
      | Some f => let* a := _eval operand in call_op f [a]
      | None => Raise unsupported
      end
  | Call (Name id) args _ =>
      match ALLOWED_NAMES !! id with
      | Some fn => let* vs := mapM _eval args in py_call fn vs
      | None => Raise unsupported
      end
  | Call _ _ _ => Raise unsupported
  | Name id =>
      match ALLOWED_NAMES !! id with
      | Some v => Ok v
      | None => Raise unsupported
      end
  | Node _ _ => Raise unsupported
  end.

Definition eval_expr (expr : string) : result value :=
  let* tree := ast_parse expr in
  _eval tree.
End EvalExpr.

(** ** [str] methods *)

Definition dquote : ascii := "034"%char.

Definition in_range (lo hi : nat) (c : ascii) : bool :=
  (lo <=? nat_of_ascii c)%nat && (nat_of_ascii c <=? hi)%nat.

(** [str.isspace] on ASCII: tab to carriage return, the four separators
    FS GS RS US, and the space. *)
Definition is_space (c : ascii) : bool := in_range 9 13 c || in_range 28 32 c.
Definition is_upper (c : ascii) : bool := in_range 65 90 c.
Definition is_lower (c : ascii) : bool := in_range 97 122 c.
Definition is_alpha (c : ascii) : bool := is_upper c || is_lower c.
Definition is_digit (c : ascii) : bool := in_range 48 57 c.

Definition to_lower (c : ascii) : ascii :=
  if is_upper c then ascii_of_nat (nat_of_ascii c + 32) else c.
Definition to_upper (c : ascii) : ascii :=
  if is_lower c then ascii_of_nat (nat_of_ascii c - 32) else c.

Fixpoint str_map (f : ascii -> ascii) (s : string) : string :=
  match s with
  | EmptyString => EmptyString
  | String c s' => String (f c) (str_map f s')
  end.

Definition str_lower : string -> string := str_map to_lower.

Fixpoint lstrip (s : string) : string :=
  match s with
  | EmptyString => EmptyString
  | String c s' => if is_space c then lstrip s' else s
  end.

Fixpoint rstrip (s : string) : string :=
  match s with
  | EmptyString => EmptyString
  | String c s' =>
      match rstrip s' with
      | EmptyString => if is_space c then EmptyString else String c EmptyString
      | t => String c t
      end
  end.

Definition str_strip (s : string) : string := rstrip (lstrip s).

Definition is_empty (s : string) : bool :=
  match s with EmptyString => true | _ => false end.

(** [s.startswith(p)] *)
Fixpoint startswith (s p : string) {struct p} : bool :=
  match p, s with
  | EmptyString, _ => true
  | String a p', String b s' => Ascii.eqb a b && startswith s' p'
  | String _ _, EmptyString => false
  end.

(** [sub in s] *)
Fixpoint str_in (sub s : string) : bool :=
  startswith s sub ||
  match s with
  | EmptyString => false
  | String _ s' => str_in sub s'
  end.

(** [any(w in s for w in ws)] *)
Definition any_in (ws : list string) (s : string) : bool :=
  existsb (fun w => str_in w s) ws.

(** [s.split(sep, 1)[1]] for a separator of one character *)
Fixpoint after_first (sep : ascii) (s : string) : option string :=
  match s with
  | EmptyString => None
  | String c s' => if Ascii.eqb c sep then Some s' else after_first sep s'
  end.

Definition split1_second (sep : ascii) (s : string) : result string :=
  match after_first sep s with
  | Some t => Ok t
  | None => Raise (Exn IndexError "list index out of range")
  end.

(** [str.title]: a letter is upper-cased after a character that is no
    letter and lower-cased after a letter. *)
Fixpoint title_from (prev_cased : bool) (s : string) : string :=
  match s with
  | EmptyString => EmptyString
  | String c s' =>
      if is_alpha c
      then String (if prev_cased then to_lower c else to_upper c) (title_from true s')
      else String c (title_from false s')
  end.

Definition str_title : string -> string := title_from false.

(** [str] of an int *)
Definition int_repr (z : Z) : string := NilZero.string_of_int (Z.to_int z).

(** ** [NAME_PAT]

    [\bmy\s+name\s+is\s+([A-Za-z][A-Za-z\-\'\s]{0,30})\b], ignoring case.
    What follows each [\s+] is no space, so taking every space is the only
    way it can match; the bounded repetition is greedy and gives characters
    back until a word boundary ends the group. *)

Definition is_word (c : ascii) : bool :=
  is_alpha c || is_digit c || Ascii.eqb c "_".

Definition head (s : string) : option ascii :=
  match s with
  | EmptyString => None
  | String c _ => Some c
  end.

Definition word_at (c : option ascii) : bool :=
  match c with
  | Some c => is_word c
  | None => false
  end.

(** [\b] between the character before and the character after *)
Definition word_boundary (prev next : option ascii) : bool :=
  xorb (word_at prev) (word_at next).

Notation "'let?' x ':=' r 'in' k" :=
  (match r with Some x => k | None => None end)
  (at level 10, x name, r at level 100, k at level 200).

(** A lower-case literal matched without regard to case; the rest of the
    subject on success. *)
Fixpoint match_ci (lit s : string) : option string :=
  match lit, s with
  | EmptyString, _ => Some s
  | String a lit', String c s' =>
      if Ascii.eqb (to_lower c) a then match_ci lit' s' else None
  | String _ _, EmptyString => None
  end.

(** [\s+] *)
Definition spaces1 (s : string) : option string :=
  match s with
  | String c s' => if is_space c then Some (lstrip s') else None
  | EmptyString => None
  end.

Definition in_name_class (c : ascii) : bool :=
  is_alpha c || Ascii.eqb c "-" || Ascii.eqb c "'" || is_space c.

(** [[A-Za-z\-\'\s]{0,n}\b] after the character [last]: the longest run
    that ends at a word boundary. *)
Fixpoint name_tail (last : ascii) (n : nat) (s : string) : option string :=
  let stop :=
    if word_boundary (Some last) (head s) then Some EmptyString else None in
  match n, s with
  | S n', String c s' =>
      if in_name_class c
      then match name_tail c n' s' with
           | Some t => Some (String c t)
           | None => stop
           end
      else stop
  | _, _ => stop
  end.

(** The pattern anchored at one position; the text of group 1. *)
Definition match_name_at (prev : option ascii) (s : string) : option string :=
  if word_boundary prev (head s) then
    let? s1 := match_ci "my" s in
    let? s2 := spaces1 s1 in
    let? s3 := match_ci "name" s2 in
    let? s4 := spaces1 s3 in
    let? s5 := match_ci "is" s4 in
    let? s6 := spaces1 s5 in
    match s6 with
    | String c s7 =>
        if is_alpha c then
          let? t := name_tail c 30 s7 in Some (String c t)
        else None
    | EmptyString => None
    end
  else None.

Fixpoint search_from (prev : option ascii) (s : string) : option string :=
  match match_name_at prev s with
  | Some g => Some g
  | None =>
      match s with
      | EmptyString => None
      | String c s' => search_from (Some c) s'
      end
  end.

(** [NAME_PAT.search(text)], as [m.group(1)] of the leftmost match. *)
Definition NAME_PAT_search (text : string) : option string :=
  search_from None text.

(** ** The fixed tables *)

Definition FACTS : list (string * string) :=
  [("python", "Python is a popular programming language known for readability and versatility.");
   ("openai", "OpenAI researches and builds safe, useful AI systems.");
   ("manila", "Manila is the capital of the Philippines.");
   ("planet", "There are eight planets in our Solar System.")].

Definition JOKES : list string :=
  ["Why did the developer go broke? Because they used up all their cache.";
   "I would tell you a UDP joke, but you might not get it.";
   "Debugging: being the detective in a crime movie where you are also the murderer."].

(** [EMOJI[key]], for the four keys the program uses. *)
Definition EMOJI (key : string) : string :=
  if String.eqb key "happy" then "🙂"
  else if String.eqb key "sad" then "🙁"
  else if String.eqb key "wave" then "👋"
  else if String.eqb key "bot" then "🤖"
  else EmptyString.

(** ** [json.dump(obj, f, ensure_ascii=False, indent=2)] *)





Fixpoint spaces (n : nat) : string :=
  match n with
  | O => EmptyString
  | S n' => String " " (spaces n')
  end.



Section Dumps.
Context `{Host}.



End Dumps.

(** ** [json.load] *)




Fixpoint str_drop (n : nat) (s : string) : string :=
  match n, s with
  | S n', String _ s' => str_drop n' s'
  | _, _ => s
  end.









(** The leading decimal digits and what follows them. *)
Fixpoint span_digits (s : string) : string * string :=
  match s with
  | EmptyString => (EmptyString, EmptyString)
  | String c s' =>
      if is_digit c
      then let (d, r) := span_digits s' in (String c d, r)
      else (EmptyString, s)
  end.

Fixpoint digits_value (acc : Z) (d : string) : Z :=
  match d with
  | EmptyString => acc
  | String c d' => digits_value (acc * 10 + Z.of_N (N_of_ascii c - 48))%Z d'
  end.



(** [dict(pairs)]: a repeated key keeps its first place and its last
    value. *)
Fixpoint dict_set (k : string) (v : json) (d : list (string * json))
    : list (string * json) :=
  match d with
  | [] => [(k, v)]
  | (k', v') :: d' =>
      if String.eqb k' k then (k, v) :: d' else (k', v') :: dict_set k v d'
  end.





(** ** The memory object *)

Definition initial_memory : json :=
  JDict [("name", JNull); ("history", JList [])].

Fixpoint dict_get (k : string) (d : list (string * json)) : option json :=
  match d with
  | [] => None
  | (k', v) :: d' => if String.eqb k' k then Some v else dict_get k d'
  end.

Definition json_type_name (v : json) : string :=
  match v with
  | JNull => "NoneType"
  | JBool _ => "bool"
  | JInt _ => "int"
  | JFloat _ => "float"
  | JStr _ => "str"
  | JList _ => "list"
  | JDict _ => "dict"
  end.

(** [self.memory.get(k)]: only a dict has the method. *)
Definition memory_get (k : string) (mem : json) : result json :=
  match mem with
  | JDict d => Ok (default JNull (dict_get k d))
  | _ => Raise (Exn AttributeError
                  ("'" +:+ json_type_name mem +:+ "' object has no attribute 'get'"))
  end.

(** [self.memory[k] = v]: only a dict takes a string key. *)
Definition memory_setitem (k : string) (v : json) (mem : json) : result json :=
  match mem with
  | JDict d => Ok (JDict (dict_set k v d))
  | JList _ => Raise (Exn TypeError "list indices must be integers or slices, not str")
  | _ => Raise (Exn TypeError
                  ("'" +:+ json_type_name mem +:+ "' object does not support item assignment"))
  end.

(** Truth value of an object in an [if]. *)
Definition truthy (v : json) : bool :=
  match v with
  | JNull => false
  | JBool b => b
  | JInt z => negb (z =? 0)%Z
  | JFloat x => negb (f_is_zero x)
  | JStr s => negb (is_empty s)
  | JList l => match l with [] => false | _ => true end
  | JDict d => match d with [] => false | _ => true end
  end.

(** The Memory Record of the specification: exactly the two fields, a name
    that is absent or a string, a history of strings. *)
Definition is_opt_str (v : json) : bool :=
  match v with JNull | JStr _ => true | _ => false end.

Definition is_str (v : json) : bool :=
  match v with JStr _ => true | _ => false end.

Definition is_str_list (v : json) : bool :=
  match v with JList l => forallb is_str l | _ => false end.

Definition is_memory_record (mem : json) : bool :=
  match mem with
  | JDict [(k1, v1); (k2, v2)] =>
      (String.eqb k1 "name" && String.eqb k2 "history" && is_opt_str v1 && is_str_list v2)
      || (String.eqb k1 "history" && String.eqb k2 "name" && is_str_list v1 && is_opt_str v2)
  | _ => false
  end.

(** ** The clock and the random draw *)

Record datetime := {
  year : nat; month : nat; day : nat; hour : nat; minute : nat
}.

(** What one call of [respond] takes from outside. *)
Record env := {
  clock : datetime;   (* [datetime.now()] *)
  draw : nat          (* the draw behind [random.choice] *)
}.

Definition nat_repr (n : nat) : string := NilZero.string_of_uint (Nat.to_uint n).

Definition zero_pad (width n : nat) : string :=
  let d := nat_repr n in
  str_map (fun _ => "0"%char) (spaces (width - String.length d)) +:+ d.

(** [strftime("%Y-%m-%d %H:%M")] *)
Definition strftime (d : datetime) : string :=
  zero_pad 4 (year d) +:+ "-" +:+ zero_pad 2 (month d) +:+ "-" +:+ zero_pad 2 (day d)
  +:+ " " +:+ zero_pad 2 (hour d) +:+ ":" +:+ zero_pad 2 (minute d).

(** [random.choice(l)] *)
Definition random_choice (w : env) (l : list string) : string :=
  nth (draw w mod length l) l EmptyString.

(** ** [class Chatbot]

    Every method takes the memory (and [save] the files) and gives them
    back with its result; an exception leaves them as they were when it
    was raised. *)

Definition greeting_words : list string := ["hello"; "hi"; "hey"].
Definition thanks_words : list string := ["thank"; "thanks"; "ty"].
Definition bye_words : list string := ["bye"; "goodbye"; "quit"; "exit"].
Definition negative_words : list string := ["sad"; "down"; "tired"; "stressed"].
Definition positive_words : list string := ["great"; "awesome"; "happy"; "good"].

Definition say_something : string := "Say something and I'll reply!".
Definition fallback : string :=
  "I didn't quite get that. Try /help or say 'joke', 'time', or 'calc: 2*(3+4)'.".

Definition builtin_name (f : builtin) : string :=
  match f with
  | math_sin => "sin" | math_cos => "cos" | math_tan => "tan"
  | math_asin => "asin" | math_acos => "acos" | math_atan => "atan"
  | math_sqrt => "sqrt" | math_log => "log" | math_log10 => "log10"
  | math_exp => "exp" | math_floor => "floor" | math_ceil => "ceil"
  end.

(** The first fact whose key occurs in the text, in the order of [FACTS]. *)
Definition lookup_fact (low : string) : option string :=
  option_map snd (find (fun kv => str_in (fst kv) low) FACTS).

(** The expression of a calculator request:
    [text.split(":", 1)[1] if ":" in text else text.split(" ", 1)[1]]. *)
Definition calc_expr (text : string) : result string :=
  if str_in ":" text then split1_second ":" text else split1_second " " text.

Module Chatbot.
Section Methods.
Context `{Host}.

Definition now (w : env) : string := strftime (clock w).

Definition _remember_name (text : string) (mem : json)
    : result (option string) * json :=
  match NAME_PAT_search text with
  | Some g =>
      let name := str_title (str_strip g) in
      match memory_setitem "name" (JStr name) mem with
      | Ok mem' => (Ok (Some name), mem')
      | Raise e => (Raise e, mem)
      end
  | None => (Ok None, mem)
  end.



Definition reset (mem : json) : result string * json :=
  match memory_get "name" mem with
  | Ok name =>
      (Ok "Okay, I cleared the chat history but kept your name.",
       JDict [("name", name); ("history", JList [])])
  | Raise e => (Raise e, mem)
  end.

(** [str(val)] of a calculator value (an int is printed in full, as
    Python 3.9 and 3.10 do) *)
Definition py_str (v : value) : string :=
  match v with
  | VInt z => int_repr z
  | VFloat x => float_repr x
  | VComplex re im => complex_repr re im
  | VBuiltin f => "<built-in function " +:+ builtin_name f +:+ ">"
  end.

(** [str(x)] of a memory value *)
Definition json_str (v : json) : string :=
  match v with
  | JNull => "None"
  | JBool true => "True"
  | JBool false => "False"
  | JInt z => int_repr z
  | JFloat x => float_repr x
  | JStr s => s
  | _ => container_repr v
  end.

(** [' ' + name if name else ''] *)
Definition space_name (name : json) : result string :=
  if truthy name then
    match name with
    | JStr s => Ok (" " +:+ s)
    | _ => Raise (Exn TypeError
                    ("can only concatenate str (not " +:+ String dquote (json_type_name name)
                     +:+ String dquote ") to str"))
    end
  else Ok EmptyString.

Definition greeting (suffix : string) : string :=
  "Hey" +:+ suffix +:+ "! I'm " +:+ EMOJI "bot" +:+ " — ask me stuff or type /help.".

(** [{',' if name else ''} {name or ''}] *)
Definition comma_name (name : json) : string :=
  (if truthy name then "," else EmptyString) +:+ " "
  +:+ (if truthy name then json_str name else EmptyString).

(** The [try] of the calculator rule: the value and its formatting are
    inside it, and every exception becomes the apology. *)
Definition calculator_reply (expr : string) : string :=
  match eval_expr expr with
  | Ok val => str_strip expr +:+ " = " +:+ py_str val
  | Raise e => "I couldn't compute that: " +:+ exn_str e
  end.

(** The rules after the name rule, first match first. *)
Definition reply_rules (w : env) (text : string) (mem : json) : result string :=
  let low := str_lower text in
  let* name := memory_get "name" mem in
  if any_in greeting_words low then
    let* suffix := space_name name in Ok (greeting suffix)
  else if any_in thanks_words low then Ok "You're welcome!"
  else if any_in bye_words low then Ok "Bye! Type /quit to leave the program."
  else if str_in "time" low || str_in "date" low then Ok ("It's " +:+ now w +:+ ".")
  else if str_in "joke" low then Ok (random_choice w JOKES)
  else if startswith low "calc:" || startswith low "calc " then
    let* expr := calc_expr text in Ok (calculator_reply expr)
  else
    match lookup_fact low with
    | Some ans => Ok ans
    | None =>
        if any_in negative_words low then
          Ok ("Sorry you're feeling that way" +:+ comma_name name
              +:+ ". I'm here to listen. " +:+ EMOJI "sad")
        else if any_in positive_words low then
          Ok ("Love to hear that" +:+ comma_name name +:+ "! " +:+ EMOJI "happy")
        else Ok fallback
    end.

Definition respond (w : env) (text : string) (mem : json) : result string * json :=
  let text := str_strip text in
  if is_empty text then (Ok say_something, mem)
  else
    match _remember_name text mem with
    | (Raise e, mem') => (Raise e, mem')
    | (Ok learned, mem') =>
        match learned with
        | Some name =>
            if negb (is_empty name)
            then (Ok ("Nice to meet you, " +:+ name +:+ "! " +:+ EMOJI "wave"), mem')
            else (reply_rules w text mem', mem')
        | None => (reply_rules w text mem', mem')
        end
    end.

End Methods.
End Chatbot.
Import Chatbot.

(** ** The shell: [main]

    The keyboard is the list of what the calls of [input] meet, in order: a
    line, given back without its newline, or Ctrl-C; at the end of the list
    the input is at its end and [input] raises [EOFError].  A line comes
    with the clock and the draw that a reply to it would use.  The screen is
    the list of the strings written to the standard output, oldest first. *)




Inductive key :=
  | Line (w : env) (text : string)
  | KeyboardInterrupt.






Section Shell.
Context `{Host}.



End Shell.

(** ** The allow-listed trees

    A tree all of whose evaluated positions hold an allow-listed shape.
    The keywords of a call are no evaluated position. *)

Definition is_some {A} (o : option A) : bool :=
  match o with Some _ => true | None => false end.

Fixpoint allow_listed (node : expr) : bool :=
  match node with
  | Constant c => is_some (Num_n c)
  | BinOp lhs op rhs =>
      is_some (ALLOWED_OPS (BinK op)) && allow_listed lhs && allow_listed rhs
  | UnaryOp op operand => is_some (ALLOWED_OPS (UnK op)) && allow_listed operand
  | Call (Name id) args _ => is_some (ALLOWED_NAMES !! id) && forallb allow_listed args
  | Call _ _ _ => false
  | Name id => is_some (ALLOWED_NAMES !! id)
  | Node _ _ => false
  end.

(** ** The reference evaluator of the specification

    The expression tree of the specification's data model, evaluated by
    its rules: a literal is itself, a binary or unary node applies the
    operator looked up for its symbol to the values of its children, a call
    evaluates every argument and applies the looked-up function to its one
    argument, an identifier is looked up in the table of constants. *)

Module Reference.

Inductive number := Int (z : Z) | Real (x : float).
Inductive binary_symbol := Plus | Minus | Times | Divide | Modulo | Power.
Inductive unary_symbol := Positive | Negative.
Inductive constant_name := pi | e | tau.
Inductive function_name :=
  | sin | cos | tan | asin | acos | atan | sqrt | log | log10 | exp | floor | ceil.

Inductive tree :=
  | Literal (n : number)
  | BinaryOp (op : binary_symbol) (left right : tree)
  | UnaryOp (op : unary_symbol) (operand : tree)
  | Call (functionName : function_name) (args : list tree)
  | Identifier (constantName : constant_name).



Definition function_of (f : function_name) : builtin :=
  match f with
  | sin => math_sin | cos => math_cos | tan => math_tan
  | asin => math_asin | acos => math_acos | atan => math_atan
  | sqrt => math_sqrt | log => math_log | log10 => math_log10
  | exp => math_exp | floor => math_floor | ceil => math_ceil
  end.


Section Evaluate.
Context `{Host}.



End Evaluate.






End Reference.


(** ** Values named in the properties *)

(** The double [4.0]. *)
Definition four : float := S754_finite false 4503599627370496 (-50).

(** A zero divisor: the int [0], the floats [0.0] and [-0.0]. *)
Definition is_zero_value (v : value) : bool :=
  match v with
  | VInt z => (z =? 0)%Z
  | VFloat x => f_is_zero x
  | _ => false
  end.

Definition is_complex (v : value) : bool :=
  match v with
  | VComplex _ _ => true
  | _ => false
  end.

(** ** Predicates of the properties *)

(** No character of the string is white space. *)
Fixpoint no_space (s : string) : bool :=
  match s with
  | EmptyString => true
  | String c s' => negb (is_space c) && no_space s'
  end.

(** Every character of the string is one the name group admits. *)
Fixpoint all_in_name_class (s : string) : bool :=
  match s with
  | EmptyString => true
  | String c s' => in_name_class c && all_in_name_class s'
  end.


(** The name entry of the memory can be read and is absent or a string. *)
Definition memory_ok (mem : json) : bool :=
  match memory_get "name" mem with
  | Ok name => is_opt_str name
  | Raise _ => false
  end.





Section Entry.
Context `{Host}.


End Entry.

(** ** Induction on expression trees, through the argument lists *)

Section ExprInd.
Variable P : expr -> Prop.
Hypothesis HConstant : forall c, P (Constant c).
Hypothesis HBinOp : forall l o r, P l -> P r -> P (BinOp l o r).
Hypothesis HUnaryOp : forall o e, P e -> P (UnaryOp o e).
Hypothesis HCall : forall f args kws, P f -> Forall P args -> P (Call f args kws).
Hypothesis HName : forall id, P (Name id).
Hypothesis HNode : forall c children, Forall P children -> P (Node c children).

Fixpoint expr_ind' (e : expr) : P e :=
  match e with
  | Constant c => HConstant c
  | BinOp l o r => HBinOp l o r (expr_ind' l) (expr_ind' r)
  | UnaryOp o x => HUnaryOp o x (expr_ind' x)
  | Call f args kws =>
      HCall f args kws (expr_ind' f)
        ((fix all (l : list expr) : Forall P l :=
            match l with
            | [] => List.Forall_nil P
            | x :: l' => List.Forall_cons P x l' (expr_ind' x) (all l')
            end) args)
  | Name id => HName id
  | Node c children =>
      HNode c children
        ((fix all (l : list expr) : Forall P l :=
            match l with
            | [] => List.Forall_nil P
            | x :: l' => List.Forall_cons P x l' (expr_ind' x) (all l')
            end) children)
  end.
End ExprInd.

(** ** Induction on the trees of the specification *)

Section TreeInd.
Variable P : Reference.tree -> Prop.
Hypothesis HLiteral : forall n, P (Reference.Literal n).
Hypothesis HBinary : forall op l r, P l -> P r -> P (Reference.BinaryOp op l r).
Hypothesis HUnary : forall op x, P x -> P (Reference.UnaryOp op x).
Hypothesis HCall : forall f args, Forall P args -> P (Reference.Call f args).
Hypothesis HIdentifier : forall c, P (Reference.Identifier c).

End TreeInd.

(** ** A host for closed examples

    A parser for the arithmetic fragment of the expression grammar
    (integers, names, calls with positional and keyword arguments,
    parentheses, the arithmetic operators with their precedence), and no C
    library: the transcendental functions answer NaN. *)

Module ArithHost.

Inductive token :=
  | TInt (z : Z)
  | TName (id : string)
  | TSym (sym : string).

Definition syntax_error : exn := Exn SyntaxError "invalid syntax (<unknown>, line 1)".

Fixpoint span_word (s : string) : string * string :=
  match s with
  | EmptyString => (EmptyString, EmptyString)
  | String c s' =>
      if is_word c
      then let (d, r) := span_word s' in (String c d, r)
      else (EmptyString, s)
  end.

Fixpoint tokenize (fuel : nat) (s : string) : result (list token) :=
  match fuel, s with
  | _, EmptyString => Ok []
  | O, _ => Raise syntax_error
  | S fuel', String c s' =>
      if Ascii.eqb c " " || Ascii.eqb c "009" then tokenize fuel' s'
      else if is_digit c then
        let (d, r) := span_digits s in
        let* ts := tokenize fuel' r in Ok (TInt (digits_value 0 d) :: ts)
      else if is_word c then
        let (w, r) := span_word s in
        let* ts := tokenize fuel' r in Ok (TName w :: ts)
      else if startswith s "**" || startswith s "//" then
        let* ts := tokenize fuel' (str_drop 2 s) in
        Ok (TSym (String c (String c EmptyString)) :: ts)
      else if existsb (Ascii.eqb c) ["+"; "-"; "*"; "/"; "%"; "("; ")"; ","; "="]%char then
        let* ts := tokenize fuel' s' in Ok (TSym (String c EmptyString) :: ts)
      else Raise syntax_error
  end.

Definition sum_op (sym : string) : option operator :=
  if String.eqb sym "+" then Some Add
  else if String.eqb sym "-" then Some Sub
  else None.

Definition term_op (sym : string) : option operator :=
  if String.eqb sym "*" then Some Mult
  else if String.eqb sym "/" then Some Div
  else if String.eqb sym "%" then Some Mod
  else if String.eqb sym "//" then Some FloorDiv
  else None.

Definition is_sym (sym : string) (t : token) : bool :=
  match t with
  | TSym s => String.eqb s sym
  | _ => false
  end.

(** [sum], [term], [factor], [power], [primary] and [atom] of the
    grammar; each returns the tree and the tokens left. *)
Fixpoint parse_sum (fuel : nat) (ts : list token) : result (expr * list token) :=
  match fuel with
  | O => Raise syntax_error
  | S fuel' =>
      let* r := parse_term fuel' ts in
      sum_rest fuel' (fst r) (snd r)
  end
with sum_rest (fuel : nat) (acc : expr) (ts : list token) : result (expr * list token) :=
  match fuel, ts with
  | S fuel', TSym sym :: ts' =>
      match sum_op sym with
      | Some o =>
          let* r := parse_term fuel' ts' in
          sum_rest fuel' (BinOp acc o (fst r)) (snd r)
      | None => Ok (acc, ts)
      end
  | _, _ => Ok (acc, ts)
  end
with parse_term (fuel : nat) (ts : list token) : result (expr * list token) :=
  match fuel with
  | O => Raise syntax_error
  | S fuel' =>
      let* r := parse_factor fuel' ts in
      term_rest fuel' (fst r) (snd r)
  end
with term_rest (fuel : nat) (acc : expr) (ts : list token) : result (expr * list token) :=
  match fuel, ts with
  | S fuel', TSym sym :: ts' =>
      match term_op sym with
      | Some o =>
          let* r := parse_factor fuel' ts' in
          term_rest fuel' (BinOp acc o (fst r)) (snd r)
      | None => Ok (acc, ts)
      end
  | _, _ => Ok (acc, ts)
  end
with parse_factor (fuel : nat) (ts : list token) : result (expr * list token) :=
  match fuel, ts with
  | O, _ => Raise syntax_error
  | S fuel', TSym sym :: ts' =>
      if String.eqb sym "-" then
        let* r := parse_factor fuel' ts' in Ok (UnaryOp USub (fst r), snd r)
      else if String.eqb sym "+" then
        let* r := parse_factor fuel' ts' in Ok (UnaryOp UAdd (fst r), snd r)
      else parse_power fuel' ts
  | S fuel', _ => parse_power fuel' ts
  end
with parse_power (fuel : nat) (ts : list token) : result (expr * list token) :=
  match fuel with
  | O => Raise syntax_error
  | S fuel' =>
      let* r := parse_atom fuel' ts in
      let* p := call_rest fuel' (fst r) (snd r) in
      match snd p with
      | t :: ts' =>
          if is_sym "**" t then
            let* e := parse_factor fuel' ts' in Ok (BinOp (fst p) Pow (fst e), snd e)
          else Ok p
      | [] => Ok p
      end
  end
with parse_atom (fuel : nat) (ts : list token) : result (expr * list token) :=
  match fuel, ts with
  | O, _ => Raise syntax_error
  | _, TInt z :: ts' => Ok (Constant (CInt z), ts')
  | _, TName id :: ts' => Ok (Name id, ts')
  | S fuel', TSym sym :: ts' =>
      if String.eqb sym "(" then
        let* r := parse_sum fuel' ts' in
        match snd r with
        | t :: ts'' => if is_sym ")" t then Ok (fst r, ts'') else Raise syntax_error
        | [] => Raise syntax_error
        end
      else Raise syntax_error
  | _, [] => Raise syntax_error
  end
with call_rest (fuel : nat) (f : expr) (ts : list token) : result (expr * list token) :=
  match fuel, ts with
  | S fuel', t :: ts' =>
      if is_sym "(" t then
        match ts' with
        | t' :: ts'' =>
            if is_sym ")" t' then call_rest fuel' (Call f [] []) ts''
            else
              let* r := parse_args fuel' false ts' in
              let '(args, kws, rest) := r in
              call_rest fuel' (Call f args kws) rest
        | [] => Raise syntax_error
        end
      else Ok (f, ts)
  | _, _ => Ok (f, ts)
  end
with parse_args (fuel : nat) (seen_kw : bool) (ts : list token)
    : result (list expr * list (option string * expr) * list token) :=
  match fuel with
  | O => Raise syntax_error
  | S fuel' =>
      let* item :=
        match ts with
        | TName id :: t :: ts' =>
            if is_sym "=" t then
              let* r := parse_sum fuel' ts' in Ok (Some id, fst r, snd r)
            else let* r := parse_sum fuel' ts in Ok (None, fst r, snd r)
        | _ => let* r := parse_sum fuel' ts in Ok (None, fst r, snd r)
        end in
      let '(kw, e, rest) := item in
      match kw, seen_kw with
      | None, true => Raise syntax_error
      | _, _ =>
          let single :=
            match kw with
            | Some id => ([], [(Some id, e)])
            | None => ([e], [])
            end in
          match rest with
          | t :: rest' =>
              if is_sym ")" t then Ok (fst single, snd single, rest')
              else if is_sym "," t then
                let* r := parse_args fuel' (seen_kw || bool_decide (is_Some kw)) rest' in
                let '(args, kws, rest'') := r in
                Ok (fst single ++ args, snd single ++ kws, rest'')
              else Raise syntax_error
          | [] => Raise syntax_error
          end
      end
  end.

(** The parser: leading white space is an indentation error. *)
Definition parse (s : string) : result expr :=
  match s with
  | String c _ =>
      if Ascii.eqb c " " || Ascii.eqb c "009"
      then Raise (Exn SyntaxError "unexpected indent (<unknown>, line 1)")
      else
        let* ts := tokenize (String.length s) s in
        let* r := parse_sum (8 * S (length ts)) ts in
        match snd r with
        | [] => Ok (fst r)
        | _ => Raise syntax_error
        end
  | EmptyString => Raise (Exn SyntaxError "invalid syntax (<unknown>, line 0)")
  end.

(** [repr] of a double that is a whole number; other doubles are not
    printed by this host. *)
Definition whole_repr (x : float) : string :=
  match x with
  | S754_zero false => "0.0"
  | S754_zero true => "-0.0"
  | S754_finite _ _ _ =>
      match float_floor x with
      | Some z =>
          if (Z.abs z <? 10 ^ 16)%Z && bool_decide (float_floor (f_neg x) = Some (- z)%Z)
          then int_repr z +:+ ".0"
          else "<float>"
      | None => "<float>"
      end
  | S754_infinity false => "inf"
  | S754_infinity true => "-inf"
  | S754_nan => "nan"
  end.

Definition no_libm (x : float) : float := S754_nan.

#[export] Instance host : Host := {|
  ast_parse := parse;
  c_sin := no_libm; c_cos := no_libm; c_tan := no_libm;
  c_asin := no_libm; c_acos := no_libm; c_atan := no_libm;
  c_log := no_libm; c_log10 := no_libm; c_exp := no_libm;
  float_pow := fun _ _ => Raise (Exn OverflowError "no pow in this host");
  float_rem := fun _ _ => S754_nan;
  complex_arith := fun _ _ _ => Raise (Exn OverflowError "no complex arithmetic in this host");
  float_repr := whole_repr;
  complex_repr := fun _ _ => "<complex>";
  container_repr := fun _ => "<container>";
  fs_writable := fun _ => true;
|}.

End ArithHost.

(** The clock and the draw of the closed examples. *)
Definition noon : env :=
  {| clock := {| year := 2024; month := 5; day := 17; hour := 12; minute := 0 |};
     draw := 1 |}.

(** ** Vocabulary of the further properties *)


Definition is_function (v : value) : bool :=
  match v with VBuiltin _ => true | _ => false end.

(** The integer that an expression of int literals denotes under [+ - *],
    [%] by a divisor that is not zero, [**] by an exponent that is not
    negative, and the two signs; no value for any other expression. *)
Fixpoint int_value (e : expr) : option Z :=
  match e with
  | Constant (CInt z) => Some z
  | BinOp l op r =>
      match int_value l, int_value r with
      | Some a, Some b =>
          match op with
          | Add => Some (a + b)%Z
          | Sub => Some (a - b)%Z
          | Mult => Some (a * b)%Z
          | Mod => if (b =? 0)%Z then None else Some (a mod b)%Z
          | Pow => if (b <? 0)%Z then None else Some (a ^ b)%Z
          | _ => None
          end
      | _, _ => None
      end
  | UnaryOp USub x => option_map Z.opp (int_value x)
  | UnaryOp UAdd x => int_value x
  | _ => None
  end.

(** What the interpreter's float power and complex arithmetic give is a
    number. *)
Definition numeric_host `{Host} : Prop :=
  (forall x y v, float_pow x y = Ok v -> is_function v = false)
  /\ (forall op a b v, complex_arith op a b = Ok v -> is_function v = false).



(** Every character of the string is white space. *)
Fixpoint all_space (s : string) : bool :=
  match s with
  | EmptyString => true
  | String c s' => is_space c && all_space s'
  end.

(** The last character of [String last s] is a letter. *)
Fixpoint ends_in_letter (last : ascii) (s : string) : bool :=
  match s with
  | EmptyString => is_alpha last
  | String c s' => ends_in_letter c s'
  end.







(** * Properties of the calculator *)

(** ** Results *)

Lemma bind_raises_l {A B} (r : result A) (k : A -> result B) :
  raises r -> raises (bind r k).
Proof. intros [e ->]. exists e. reflexivity. Qed.

Lemma bind_raises_r {A B} (r : result A) (k : A -> result B) :
  (forall a, raises (k a)) -> raises (bind r k).
Proof. intros Hk. destruct r as [a|e]; simpl; [apply Hk | by exists e]. Qed.

Ltac raised := intros; eexists; reflexivity.

Ltac ascii_cases c := destruct c as [[] [] [] [] [] [] [] []].

Section CalculatorFacts.
Context `{Host}.

Lemma mapM_raises (args : list expr) :
  Forall (fun a => allow_listed a = false -> raises (_eval a)) args ->
  forallb allow_listed args = false ->
  raises (mapM _eval args).
Proof.
  induction 1 as [|a args Ha _ IH]; simpl; [discriminate|].
  intros Hb. apply andb_false_iff in Hb as [Hb|Hb].
  - apply bind_raises_l, Ha, Hb.
  - apply bind_raises_r. intros v. apply bind_raises_l, IH, Hb.
Qed.

(** Every tree with a shape outside the allow-lists in an evaluated
    position is rejected: the evaluation raises. *)
Lemma _eval_rejects (node : expr) :
  allow_listed node = false -> raises (_eval node).
Proof.
  induction node as [c|l o r IHl IHr|o x IHx|f args kws _ IHargs|id|c children _]
    using expr_ind'; cbn [_eval allow_listed].
  - destruct (Num_n c); simpl; [discriminate|]. raised.
  - destruct (ALLOWED_OPS (BinK o)); simpl; [|raised].
    intros Hb. apply andb_false_iff in Hb as [Hb|Hb].
    + apply bind_raises_l, IHl, Hb.
    + apply bind_raises_r. intros a. apply bind_raises_l, IHr, Hb.
  - destruct (ALLOWED_OPS (UnK o)); simpl; [|raised].
    intros Hb. apply bind_raises_l, IHx, Hb.
  - destruct f; try raised.
    destruct (ALLOWED_NAMES !! id); simpl; [|raised].
    intros Hb. apply bind_raises_l, mapM_raises; assumption.
  - destruct (ALLOWED_NAMES !! id); simpl; [discriminate|]. raised.
  - raised.
Qed.

(** The names of the functions are on the same allow-list as the constants:
    a function name on its own, not called, evaluates to the function. *)
Lemma _eval_function_name (f : Reference.function_name) :
  _eval (Name (builtin_name (Reference.function_of f)))
  = Ok (VBuiltin (Reference.function_of f)).
Proof. by destruct f. Qed.

End CalculatorFacts.




Section ReferenceFacts.
Context `{Host}.
Import Reference.







End ReferenceFacts.

Section CalculatorClaims.
Context `{Host}.

(** C1 (fails on the code): a construct outside the allow-lists is not
    always rejected.  The keywords of a call to an allow-listed function
    are never looked at: [sqrt(16, x=foo)], whose keyword value [foo] is an
    unknown identifier, evaluates to [4.0]. *)
Theorem eval_expr_ignores_keywords :
  ast_parse "sqrt(16, x=foo)"
    = Ok (Call (Name "sqrt") [Constant (CInt 16)] [(Some "x", Name "foo")]) ->
  allow_listed (Name "foo") = false
  /\ raises (_eval (Name "foo"))
  /\ eval_expr "sqrt(16, x=foo)" = Ok (VFloat four).
Proof.
  intros Hparse. split; [reflexivity|]. split.
  - apply _eval_rejects. reflexivity.
  - unfold eval_expr. rewrite Hparse. reflexivity.
Qed.


Lemma truediv_by_zero a b :
  is_zero_value b = true -> is_complex a = false -> raises (op_truediv a b).
Proof.
  destruct b as [y|y| |]; simpl; try discriminate; intros Hz.
  - apply Z.eqb_eq in Hz as ->.
    destruct a as [x|x| |]; simpl; try discriminate; intros _; try raised.
  - destruct y; try discriminate.
    destruct a as [x|x| |]; simpl; try discriminate; intros _; try raised.
    apply bind_raises_r. intros x'. raised.
Qed.

Lemma mod_by_zero a b :
  is_zero_value b = true -> is_complex a = false -> raises (op_mod a b).
Proof.
  destruct b as [y|y| |]; simpl; try discriminate; intros Hz.
  - apply Z.eqb_eq in Hz as ->.
    destruct a as [x|x| |]; simpl; try discriminate; intros _; try raised.
  - destruct y; try discriminate.
    destruct a as [x|x| |]; simpl; try discriminate; intros _; try raised.
    apply bind_raises_r. intros x'. raised.
Qed.

(** C3: [1/0] and [1%0] raise [ZeroDivisionError]; and whatever the
    operands, a division or a modulo of a real number by a zero (the int
    [0], the floats [0.0] and [-0.0]) raises and returns no value, so no
    infinity and no NaN. *)
Theorem division_by_zero_raises :
  ast_parse "1/0" = Ok (BinOp (Constant (CInt 1)) Div (Constant (CInt 0))) ->
  ast_parse "1%0" = Ok (BinOp (Constant (CInt 1)) Mod (Constant (CInt 0))) ->
  raises_kind ZeroDivisionError (eval_expr "1/0")
  /\ raises_kind ZeroDivisionError (eval_expr "1%0")
  /\ (forall lhs rhs b,
        _eval rhs = Ok b -> is_zero_value b = true ->
        (forall re im, _eval lhs <> Ok (VComplex re im)) ->
        raises (_eval (BinOp lhs Div rhs)) /\ raises (_eval (BinOp lhs Mod rhs))).
Proof.
  intros Hdiv Hmod. split; [|split].
  - unfold eval_expr. rewrite Hdiv. eexists. reflexivity.
  - unfold eval_expr. rewrite Hmod. eexists. reflexivity.
  - intros lhs rhs b Hb Hz Hreal. cbn [_eval ALLOWED_OPS]. rewrite Hb.
    destruct (_eval lhs) as [a|err] eqn:Ea; simpl.
    + assert (is_complex a = false) as Ha.
      { destruct a; try reflexivity. by destruct (Hreal re im). }
      split; [by apply truediv_by_zero | by apply mod_by_zero].
    + split; raised.
Qed.

End CalculatorClaims.

Lemma eval_expr_ignores_keywords_witness :
  ast_parse (Host := ArithHost.host) "sqrt(16, x=foo)"
    = Ok (Call (Name "sqrt") [Constant (CInt 16)] [(Some "x", Name "foo")])
  /\ eval_expr (H := ArithHost.host) "sqrt(16, x=foo)" = Ok (VFloat four).
Proof.
  split; [reflexivity|].
  apply (@eval_expr_ignores_keywords ArithHost.host). reflexivity.
Defined.


Lemma division_by_zero_raises_witness :
  raises_kind ZeroDivisionError (eval_expr (H := ArithHost.host) "1/0")
  /\ raises_kind ZeroDivisionError (eval_expr (H := ArithHost.host) "1%0")
  /\ raises (_eval (H := ArithHost.host)
               (BinOp (Constant (CFloat four)) Div (UnaryOp USub (Constant (CFloat (S754_zero false)))))).
Proof.
  destruct (@division_by_zero_raises ArithHost.host eq_refl eq_refl) as (E1 & E2 & Hall).
  split; [exact E1|]. split; [exact E2|].
  apply (Hall (Constant (CFloat four)) (UnaryOp USub (Constant (CFloat (S754_zero false))))
              (VFloat (S754_zero true))); [reflexivity | reflexivity | discriminate].
Defined.

(** * Properties of the reply rules *)

(** ** Characters *)


Lemma to_lower_colon c : to_lower c = ":"%char -> c = ":"%char.
Proof. ascii_cases c; vm_compute; congruence. Qed.

Lemma to_lower_blank c : to_lower c = " "%char -> c = " "%char.
Proof. ascii_cases c; vm_compute; congruence. Qed.

(** ** Strings *)




Lemma str_in_empty w : str_in w EmptyString = true -> w = EmptyString.
Proof. destruct w; simpl; [reflexivity|discriminate]. Qed.


Lemma rstrip_cons c s : is_space c = false -> rstrip (String c s) = String c (rstrip s).
Proof. intros Hc. simpl. rewrite Hc. by destruct (rstrip s). Qed.





Lemma any_in_nonempty ws s :
  forallb (fun w => negb (is_empty w) && no_space w) ws = true ->
  any_in ws s = true -> is_empty s = false.
Proof.
  unfold any_in. induction ws as [|w ws IH]; simpl; [done|].
  intros [[Hne Hw]%andb_true_iff Hws]%andb_true_iff [Hin|Hin]%orb_true_iff.
  - destruct s; [|done]. apply str_in_empty in Hin. by subst.
  - by apply IH.
Qed.

(** ** The name pattern *)

Lemma name_tail_shape last n s t :
  name_tail last n s = Some t ->
  String.length t <= n /\ all_in_name_class t = true.
Proof.
  revert last s t. induction n as [|n IH]; intros last s t; cbn [name_tail].
  - destruct (word_boundary _ _), s; intros [= <-]; simpl; split; (lia || done).
  - destruct s as [|c s].
    + destruct (word_boundary _ _); intros [= <-]; simpl; split; (lia || done).
    + destruct (in_name_class c) eqn:Hc.
      * destruct (name_tail c n s) as [t'|] eqn:Ht.
        -- intros [= <-]. destruct (IH _ _ _ Ht) as [Hlen Hall].
           simpl. rewrite Hc, Hall. split; [lia|done].
        -- destruct (word_boundary _ _); intros [= <-]; simpl; split; (lia || done).
      * destruct (word_boundary _ _); intros [= <-]; simpl; split; (lia || done).
Qed.

Lemma match_name_at_shape prev s g :
  match_name_at prev s = Some g ->
  exists c t, g = String c t /\ is_alpha c = true
              /\ String.length t <= 30 /\ all_in_name_class t = true.
Proof.
  unfold match_name_at.
  destruct (word_boundary prev (head s)); [|done].
  destruct (match_ci "my" s) as [s1|]; [|done].
  destruct (spaces1 s1) as [s2|]; [|done].
  destruct (match_ci "name" s2) as [s3|]; [|done].
  destruct (spaces1 s3) as [s4|]; [|done].
  destruct (match_ci "is" s4) as [s5|]; [|done].
  destruct (spaces1 s5) as [[|c s7]|]; [done| |done].
  destruct (is_alpha c) eqn:Hc; [|done].
  destruct (name_tail c 30 s7) as [t|] eqn:Ht; [|done].
  intros [= <-]. destruct (name_tail_shape _ _ _ _ Ht). eauto 10.
Qed.

(** The text of the name group: a letter, then at most thirty letters,
    hyphens, apostrophes and white-space characters. *)
Lemma NAME_PAT_search_shape text g :
  NAME_PAT_search text = Some g ->
  exists c t, g = String c t /\ is_alpha c = true
              /\ String.length t <= 30 /\ all_in_name_class t = true.
Proof.
  unfold NAME_PAT_search. generalize (@None ascii) as prev.
  induction text as [|c text IH]; intros prev; cbn [search_from].
  - destruct (match_name_at prev EmptyString) eqn:E; [|done].
    intros [= <-]. by apply match_name_at_shape in E.
  - destruct (match_name_at prev (String c text)) eqn:E.
    + intros [= <-]. by apply match_name_at_shape in E.
    + apply IH.
Qed.

(** ** The memory dict *)

Lemma dict_get_set_eq k v d : dict_get k (dict_set k v d) = Some v.
Proof.
  induction d as [|[k' v'] d IH]; simpl.
  - by rewrite String.eqb_refl.
  - destruct (String.eqb_spec k' k) as [->|Hne]; simpl.
    + by rewrite String.eqb_refl.
    + by apply String.eqb_neq in Hne as ->.
Qed.

Lemma dict_get_set_ne k k' v d : k <> k' -> dict_get k' (dict_set k v d) = dict_get k' d.
Proof.
  intros Hne. induction d as [|[k0 v0] d IH]; simpl.
  - by apply String.eqb_neq in Hne as ->.
  - destruct (String.eqb_spec k0 k) as [->|Hne0]; simpl.
    + by apply String.eqb_neq in Hne as ->.
    + by rewrite IH.
Qed.

Lemma record_memory_ok mem : is_memory_record mem = true -> memory_ok mem = true.
Proof.
  destruct mem as [| | | | | |d]; try discriminate.
  destruct d as [|[k1 v1] [|[k2 v2] [|]]]; try discriminate.
  unfold memory_ok. cbn [is_memory_record memory_get dict_get].
  intros [Hr|Hr]%orb_true_iff.
  - apply andb_true_iff in Hr as [[[Hk1 Hk2]%andb_true_iff Hv1]%andb_true_iff Hv2].
    by rewrite Hk1.
  - apply andb_true_iff in Hr as [[[Hk1 Hk2]%andb_true_iff Hv1]%andb_true_iff Hv2].
    apply String.eqb_eq in Hk1 as ->. by rewrite Hk2.
Qed.


Lemma memory_ok_set_name mem n :
  memory_ok mem = true ->
  exists mem', memory_setitem "name" (JStr n) mem = Ok mem' /\ memory_ok mem' = true.
Proof.
  destruct mem as [| | | | | |d]; try discriminate. intros _.
  eexists. split; [reflexivity|].
  unfold memory_ok. cbn [memory_get]. by rewrite dict_get_set_eq.
Qed.

Lemma after_first_found c s :
  str_in (String c EmptyString) s = true -> exists t, after_first c s = Some t.
Proof.
  induction s as [|b s IH]; [done|]. cbn [str_in startswith after_first].
  rewrite andb_true_r, (Ascii.eqb_sym c b).
  destruct (Ascii.eqb b c); simpl; [eauto|exact IH].
Qed.

Lemma str_in_cons sub c s : str_in sub s = true -> str_in sub (String c s) = true.
Proof. intros Hs. cbn [str_in]. rewrite Hs. apply orb_true_r. Qed.

Lemma str_in_here c s : str_in (String c EmptyString) (String c s) = true.
Proof. cbn [str_in startswith]. by rewrite Ascii.eqb_refl. Qed.

Lemma startswith_app s p : startswith s p = true -> exists rest, s = p +:+ rest.
Proof.
  revert s. induction p as [|a p IH]; intros s; simpl; [eauto|].
  destruct s as [|b s]; [done|]. intros [Hab Hs]%andb_true_iff.
  apply Ascii.eqb_eq in Hab as <-. destruct (IH s Hs) as [rest ->]. eauto.
Qed.

(** The first five characters of a text whose lower-case form starts with
    the four letters and [sep]. *)
Lemma calc_prefix_shape text sep :
  startswith (str_lower text) (String "c" (String "a" (String "l" (String "c" (String sep EmptyString))))) = true ->
  exists c1 c2 c3 c4 c5 rest,
    text = String c1 (String c2 (String c3 (String c4 (String c5 rest))))
    /\ to_lower c1 = "c"%char /\ to_lower c2 = "a"%char
    /\ to_lower c3 = "l"%char /\ to_lower c4 = "c"%char
    /\ to_lower c5 = sep.
Proof.
  intros [rest E]%startswith_app. unfold str_lower in E.
  destruct text as [|c1 [|c2 [|c3 [|c4 [|c5 text]]]]]; try discriminate.
  cbn in E. injection E as E1 E2 E3 E4 E5 _. eauto 12.
Qed.

Lemma str_in_true sep c2 c3 c4 rest :
  str_in (String sep EmptyString) (String c2 (String c3 (String c4 (String sep rest)))) = true.
Proof. do 3 apply str_in_cons. apply str_in_here. Qed.

(** After the calculator trigger the expression can always be cut out:
    the subscript of the split never fails. *)
Lemma calc_expr_ok text :
  startswith (str_lower text) "calc:" || startswith (str_lower text) "calc " = true ->
  exists e, calc_expr text = Ok e.
Proof.
  intros Hp. unfold calc_expr, split1_second.
  destruct (str_in ":" text) eqn:Hcolon.
  - destruct (after_first_found _ _ Hcolon) as [t ->]. eauto.
  - apply orb_true_iff in Hp as [Hp|Hp];
      apply calc_prefix_shape in Hp
        as (c1 & c2 & c3 & c4 & c5 & rest & -> & _ & _ & _ & _ & H5).
    + apply to_lower_colon in H5 as ->.
      pose proof (str_in_cons _ c1 _ (str_in_true ":" c2 c3 c4 rest)) as Ht.
      congruence.
    + apply to_lower_blank in H5 as ->.
      destruct (after_first_found " " (String c1 (String c2 (String c3 (String c4 (String " " rest))))))
        as [t ->]; [|eauto].
      apply str_in_cons, str_in_true.
Qed.




Section ReplyFacts.
Context `{Host}.


Lemma respond_no_name w text mem :
  is_empty (str_strip text) = false ->
  NAME_PAT_search (str_strip text) = None ->
  respond w text mem = (reply_rules w (str_strip text) mem, mem).
Proof. unfold respond, _remember_name. by intros -> ->. Qed.



Lemma space_name_ok name : is_opt_str name = true -> exists suffix, space_name name = Ok suffix.
Proof. destruct name; try discriminate; intros _; unfold space_name; simpl; [eauto|]. destruct (negb _); eauto. Qed.

Lemma reply_rules_ok w text mem :
  memory_ok mem = true -> exists reply, reply_rules w text mem = Ok reply.
Proof.
  unfold memory_ok, reply_rules. destruct (memory_get "name" mem) as [name|]; [|done].
  intros Hname. cbn [bind]. set (low := str_lower text).
  destruct (any_in greeting_words low).
  { destruct (space_name_ok name Hname) as [suffix ->]. cbn [bind]. eauto. }
  destruct (any_in thanks_words low); [eauto|].
  destruct (any_in bye_words low); [eauto|].
  destruct (str_in "time" low || str_in "date" low); [eauto|].
  destruct (str_in "joke" low); [eauto|].
  destruct (startswith low "calc:" || startswith low "calc ") eqn:Hcalc.
  { destruct (calc_expr_ok _ Hcalc) as [e ->]. cbn [bind]. eauto. }
  destruct (lookup_fact low); [eauto|].
  destruct (any_in negative_words low); [eauto|].
  destruct (any_in positive_words low); eauto.
Qed.


(** [respond] on a memory whose name can be read returns a reply and keeps
    the memory readable. *)
Lemma respond_ok w text mem :
  memory_ok mem = true ->
  exists reply mem', respond w text mem = (Ok reply, mem') /\ memory_ok mem' = true.
Proof.
  intros Hok. unfold respond.
  destruct (is_empty (str_strip text)); [eauto|].
  unfold _remember_name. destruct (NAME_PAT_search _) as [g|].
  - destruct (memory_ok_set_name mem (str_title (str_strip g)) Hok) as (mem' & -> & Hok').
    destruct (negb _); [eauto|].
    destruct (reply_rules_ok w (str_strip text) mem' Hok') as [reply ->]. eauto.
  - destruct (reply_rules_ok w (str_strip text) mem Hok) as [reply ->]. eauto.
Qed.

End ReplyFacts.

Section ReplyClaims.
Context `{Host}.

(** C4 (fails on the code): the calculator rule does not always pass on
    the text after the prefix.  With the prefix [calc ] and a colon further
    on, the expression is the text after the colon: for [calc 1:2] the
    text after the prefix is [1:2], the evaluator is given [2], and the
    reply is [2 = 2]. *)
Theorem respond_calc_cuts_at_colon w :
  ast_parse "2" = Ok (Constant (CInt 2)) ->
  str_drop 5 "calc 1:2" = "1:2"
  /\ calc_expr "calc 1:2" = Ok "2"
  /\ respond w "calc 1:2" initial_memory = (Ok "2 = 2", initial_memory).
Proof.
  intros Hparse. split; [reflexivity|]. split; [reflexivity|].
  rewrite respond_no_name by reflexivity.
  change (str_strip "calc 1:2") with "calc 1:2".
  unfold reply_rules. change (str_lower "calc 1:2") with "calc 1:2".
  cbn [memory_get initial_memory dict_get bind].
  change (calc_expr "calc 1:2") with (@Ok string "2").
  cbn [bind]. unfold calculator_reply, eval_expr. rewrite Hparse. reflexivity.
Qed.

(** C7: [reset] on a dict memory (every Memory Record is one) leaves a
    record whose history is the empty list and whose name is the name read
    before the call; and assigning a name, in [_remember_name] or through
    [respond], leaves the history as it was. *)
Theorem reset_clears_history_keeps_name :
  (forall mem, is_memory_record mem = true ->
     exists mem',
       reset mem = (Ok "Okay, I cleared the chat history but kept your name.", mem')
       /\ is_memory_record mem' = true
       /\ memory_get "history" mem' = Ok (JList [])
       /\ memory_get "name" mem' = memory_get "name" mem)
  /\ (forall text mem r mem',
        _remember_name text mem = (r, mem') ->
        memory_get "history" mem' = memory_get "history" mem)
  /\ (forall w text mem r mem',
        respond w text mem = (r, mem') ->
        memory_get "history" mem' = memory_get "history" mem).
Proof.
  assert (forall text mem r mem',
            _remember_name text mem = (r, mem') ->
            memory_get "history" mem' = memory_get "history" mem) as Hremember.
  { intros text mem r mem'. unfold _remember_name.
    destruct (NAME_PAT_search text) as [g|]; [|by intros [= _ <-]].
    destruct mem; cbn [memory_setitem]; intros [= _ <-]; try reflexivity.
    cbn [memory_get]. by rewrite dict_get_set_ne. }
  split; [|split; [exact Hremember|]].
  - intros mem Hrec. pose proof (record_memory_ok mem Hrec) as Hok.
    unfold memory_ok in Hok. unfold reset.
    destruct (memory_get "name" mem) as [name|]; [|done].
    eexists. split; [reflexivity|]. split; [|done].
    cbn. by rewrite Hok.
  - intros w text mem r mem'. unfold respond.
    destruct (is_empty _); [by intros [= _ <-]|].
    destruct (_remember_name _ mem) as [[learned|e] m] eqn:E.
    + apply Hremember in E.
      destruct learned as [name|]; [destruct (negb _)|]; by intros [= _ <-].
    + apply Hremember in E. by intros [= _ <-].
Qed.




End ReplyClaims.

Lemma respond_calc_cuts_at_colon_witness :
  ast_parse (Host := ArithHost.host) "2" = Ok (Constant (CInt 2))
  /\ respond (H := ArithHost.host) noon "calc 1:2" initial_memory
     = (Ok "2 = 2", initial_memory).
Proof.
  split; [reflexivity|].
  apply (@respond_calc_cuts_at_colon ArithHost.host noon). reflexivity.
Defined.

Lemma reset_clears_history_keeps_name_witness :
  let mem := JDict [("name", JStr "Ada"); ("history", JList [JStr "hello"])] in
  is_memory_record mem = true
  /\ (exists mem',
        reset mem = (Ok "Okay, I cleared the chat history but kept your name.", mem')
        /\ is_memory_record mem' = true
        /\ memory_get "history" mem' = Ok (JList [])
        /\ memory_get "name" mem' = memory_get "name" mem)
  /\ memory_get "history" (snd (_remember_name "my name is Bob" mem))
     = memory_get "history" mem.
Proof.
  intros mem.
  destruct (@reset_clears_history_keeps_name ArithHost.host) as (Hreset & Hname & _).
  split; [reflexivity|]. split.
  - apply Hreset. reflexivity.
  - apply (Hname "my name is Bob" mem (fst (_remember_name "my name is Bob" mem))).
    reflexivity.
Defined.




(** * Properties of the memory store *)

(** ** Strings that are written and read back *)

















Section DumpsFacts.
Context `{Host}.




















End DumpsFacts.




Section StoreClaims.
Context `{Host}.


End StoreClaims.


(** * Further properties of the calculator *)

Section CalculatorMore.
Context `{Host}.

Lemma _eval_int_value e : forall z, int_value e = Some z -> _eval e = Ok (VInt z).
Proof.
  induction e as [c|l o r IHl IHr|o x IHx|f args kws _ _|id|c children _]
    using expr_ind'; intros z; cbn [int_value]; try discriminate.
  - destruct c; try discriminate. by intros [= ->].
  - destruct (int_value l) as [a|]; [|discriminate].
    destruct (int_value r) as [b|]; [|discriminate].
    cbn [_eval]. intros Hz.
    destruct o; try discriminate; cbn [ALLOWED_OPS];
      rewrite (IHl a eq_refl), (IHr b eq_refl); cbn [bind call_op].
    + by injection Hz as <-.
    + by injection Hz as <-.
    + by injection Hz as <-.
    + unfold op_mod, numeric_binop, long_mod. destruct (b =? 0)%Z; [discriminate|].
      by injection Hz as <-.
    + unfold op_pow, numeric_binop, long_pow. destruct (b <? 0)%Z; [discriminate|].
      by injection Hz as <-.
  - destruct o; try discriminate; cbn [_eval ALLOWED_OPS].
    + intros Hz. rewrite (IHx z Hz). reflexivity.
    + destruct (int_value x) as [a|]; [|discriminate]. intros [= <-].
      rewrite (IHx a eq_refl). reflexivity.
Qed.

(** X1: arithmetic on ints is exact.  An expression built from int
    literals with [+ - *], [%] by a divisor that is not zero, [**] by an
    exponent that is not negative and the signs evaluates to the
    mathematical integer, an int of any size; it is never rounded to a
    float and never fails. *)
Theorem int_arithmetic_exact s e z :
  ast_parse s = Ok e -> int_value e = Some z -> eval_expr s = Ok (VInt z).
Proof.
  intros Hs Hz. unfold eval_expr. rewrite Hs. cbn [bind]. by apply _eval_int_value.
Qed.

Lemma allowed_builtin f : ALLOWED_NAMES !! builtin_name f = Some (VBuiltin f).
Proof. by destruct f. Qed.

(** X2: a call with the wrong number of arguments fails with a
    [TypeError] once the arguments are evaluated.  Every function takes
    exactly one argument; [log] alone also takes two (the second is the
    base). *)
Theorem call_arity f args kws vs :
  mapM _eval args = Ok vs ->
  length vs <> 1 ->
  (f = math_log -> length vs <> 2) ->
  raises_kind TypeError (_eval (Call (Name (builtin_name f)) args kws)).
Proof.
  intros Hvs H1 H2. cbn [_eval]. rewrite allowed_builtin, Hvs. cbn [bind py_call].
  unfold call_builtin.
  destruct vs as [|v [|v' [|v'' vs]]]; simpl in *; try lia; try (by eexists).
  destruct f; try (by eexists). by destruct H2.
Qed.

Lemma allowed_name_function id v :
  ALLOWED_NAMES !! id = Some v -> is_function v = true ->
  exists f, id = builtin_name f /\ v = VBuiltin f.
Proof.
  unfold ALLOWED_NAMES. intros Hl Hf.
  apply lookup_union_Some_raw in Hl as [Hl|[_ Hl]];
    apply elem_of_list_to_map_2 in Hl;
    repeat (apply elem_of_cons in Hl as [Hl|Hl];
            [injection Hl as -> ->;
             first [simpl in Hf; discriminate
                   |eexists; split; [|reflexivity]; reflexivity]|]);
    by apply elem_of_nil in Hl.
Qed.

Lemma numeric_binop_number sym on_int on_float on_complex a b v :
  (forall x y v, on_int x y = Ok v -> is_function v = false) ->
  (forall x y v, on_float x y = Ok v -> is_function v = false) ->
  (forall x y v, on_complex x y = Ok v -> is_function v = false) ->
  numeric_binop sym on_int on_float on_complex a b = Ok v -> is_function v = false.
Proof.
  intros Hi Hf Hc. unfold numeric_binop.
  destruct a as [x|x|re im|g], b as [y|y|re' im'|g']; try discriminate; eauto.
  - destruct (int_as_double x) as [x'|]; [|discriminate]. cbn [bind]. eauto.
  - destruct (int_as_double y) as [y'|]; [|discriminate]. cbn [bind]. eauto.
Qed.

Lemma call_op_number f a b v :
  numeric_host -> call_op f [a; b] = Ok v -> is_function v = false.
Proof.
  intros [Hpow Hcomplex]. destruct f; cbn [call_op]; try discriminate;
    apply numeric_binop_number; eauto; intros x y r.
  - by intros [= <-].
  - by intros [= <-].
  - by intros [= <-].
  - by intros [= <-].
  - by intros [= <-].
  - by intros [= <-].
  - unfold long_true_divide. destruct (y =? 0)%Z; [discriminate|].
    destruct (x =? 0)%Z; [by intros [= <-]|].
    destruct (f_is_inf _); [discriminate|]. by intros [= <-].
  - unfold float_div. destruct (f_is_zero y); [discriminate|]. by intros [= <-].
  - unfold long_pow. destruct (y <? 0)%Z; [|by intros [= <-]].
    destruct (int_as_double x); [|discriminate]. cbn [bind].
    destruct (int_as_double y); [|discriminate]. cbn [bind]. eauto.
  - unfold long_mod. destruct (y =? 0)%Z; [discriminate|]. by intros [= <-].
  - unfold float_mod. destruct (f_is_zero y); [discriminate|]. by intros [= <-].
  - discriminate.
Qed.

Lemma math_1_number func b x v : math_1 func b x = Ok v -> is_function v = false.
Proof.
  unfold math_1. destruct (_ && _); [discriminate|].
  destruct (_ && _); [discriminate|]. by intros [= <-].
Qed.

Lemma loghelper_float func a v : loghelper func a = Ok v -> exists x, v = VFloat x.
Proof.
  unfold loghelper. destruct a as [z|x|re im|g]; try discriminate.
  - destruct (z <=? 0)%Z; [discriminate|].
    destruct (f_is_inf _); [destruct (long_frexp z)|]; intros [= <-]; eauto.
  - cbn [as_double bind]. unfold math_1. destruct (_ && _); [discriminate|].
    destruct (_ && _); [discriminate|]. intros [= <-]. eauto.
Qed.

Lemma math_round_number round a v : math_round round a = Ok v -> is_function v = false.
Proof.
  unfold math_round. destruct a as [z|x|re im|g]; try discriminate.
  - by intros [= <-].
  - cbn [as_double bind]. destruct (round x); [|discriminate]. by intros [= <-].
Qed.

Lemma math_unary_number f a v : math_unary f a = Ok v -> is_function v = false.
Proof.
  destruct f; cbn [math_unary];
    try (destruct (as_double a) as [x|]; [|discriminate]; cbn [bind]; apply math_1_number).
  - intros [x ->]%loghelper_float. reflexivity.
  - intros [x ->]%loghelper_float. reflexivity.
  - apply math_round_number.
  - apply math_round_number.
Qed.

Lemma call_builtin_number f vs v : call_builtin f vs = Ok v -> is_function v = false.
Proof.
  unfold call_builtin. destruct vs as [|a [|b [|c vs]]]; try discriminate.
  - apply math_unary_number.
  - destruct f; try discriminate.
    destruct (loghelper c_log a) as [num|] eqn:En; [|discriminate].
    destruct (loghelper c_log b) as [den|] eqn:Ed; [|discriminate].
    apply loghelper_float in En as [x ->]. apply loghelper_float in Ed as [y ->].
    cbn [bind]. unfold op_truediv, numeric_binop, float_div.
    destruct (f_is_zero y); [discriminate|]. by intros [= <-].
Qed.

(** X3: the only expression that evaluates to something that is no
    number is the name of a function on its own, which evaluates to the
    function object.  Every operator and every call gives a number or
    fails, and a sign in front of a function name fails. *)
Theorem function_only_by_name node v :
  numeric_host ->
  _eval node = Ok v -> is_function v = true ->
  exists f, node = Name (builtin_name f) /\ v = VBuiltin f.
Proof.
  intros Hhost. destruct node as [c|l o r|o x|fn args kws|id|c children]; cbn [_eval].
  - destruct c; cbn [Num_n]; try discriminate; by intros [= <-].
  - destruct (ALLOWED_OPS (BinK o)) as [f|]; [|discriminate].
    destruct (_eval l) as [a|]; [|discriminate].
    destruct (_eval r) as [b|]; [|discriminate]. cbn [bind].
    intros Hv Hf. apply (call_op_number _ _ _ _ Hhost) in Hv. congruence.
  - destruct (ALLOWED_OPS (UnK o)) as [f|] eqn:Ef; [|discriminate].
    destruct (_eval x) as [a|]; [|discriminate]. cbn [bind].
    destruct o; try discriminate; injection Ef as <-; cbn [call_op];
      destruct a; try discriminate; by intros [= <-].
  - destruct fn; try discriminate.
    destruct (ALLOWED_NAMES !! id) as [g|]; [|discriminate].
    destruct (mapM _eval args) as [vs|]; [|discriminate]. cbn [bind].
    destruct g; try discriminate. cbn [py_call].
    intros Hv Hf. apply call_builtin_number in Hv. congruence.
  - destruct (ALLOWED_NAMES !! id) as [g|] eqn:Eg; [|discriminate].
    intros [= <-] Hf. destruct (allowed_name_function id g Eg Hf) as (f & -> & ->). eauto.
  - discriminate.
Qed.

End CalculatorMore.

Lemma int_arithmetic_exact_witness :
  eval_expr (H := ArithHost.host) "(2**64+1)*-3%1000"
  = Ok (VInt 149).
Proof.
  apply (@int_arithmetic_exact ArithHost.host "(2**64+1)*-3%1000"
           (BinOp (BinOp (BinOp (BinOp (Constant (CInt 2)) Pow (Constant (CInt 64)))
                                Add (Constant (CInt 1)))
                         Mult (UnaryOp USub (Constant (CInt 3))))
                  Mod (Constant (CInt 1000))));
    reflexivity.
Defined.

Lemma call_arity_witness :
  raises_kind TypeError
    (_eval (H := ArithHost.host)
       (Call (Name "sqrt") [Constant (CInt 16); Constant (CInt 2)] [])).
Proof.
  apply (@call_arity ArithHost.host math_sqrt [Constant (CInt 16); Constant (CInt 2)] []
           [VInt 16; VInt 2]); [reflexivity|simpl; lia|discriminate].
Defined.

Lemma function_only_by_name_witness :
  exists f, Name "sin" = Name (builtin_name f) /\ VBuiltin math_sin = VBuiltin f.
Proof.
  apply (@function_only_by_name ArithHost.host (Name "sin") (VBuiltin math_sin));
    [split; intros; discriminate|reflexivity|reflexivity].
Defined.

(** * Further properties of the reply rules *)

(** ** Stripping *)

Lemma rstrip_step c s :
  rstrip (String c s)
  = match rstrip s with
    | EmptyString => if is_space c then EmptyString else String c EmptyString
    | t => String c t
    end.
Proof. reflexivity. Qed.


Lemma lstrip_id c s : is_space c = false -> lstrip (String c s) = String c s.
Proof. intros Hc. cbn [lstrip]. by rewrite Hc. Qed.




Lemma lstrip_all_space p s : all_space p = true -> lstrip (p +:+ s) = lstrip s.
Proof.
  induction p as [|c p IH]; [done|]. cbn [all_space String.append lstrip].
  intros [-> Hp]%andb_true_iff. by apply IH.
Qed.

Lemma rstrip_all_space q : all_space q = true -> rstrip q = EmptyString.
Proof.
  induction q as [|c q IH]; [done|]. cbn [all_space].
  intros [Hc Hq]%andb_true_iff. rewrite rstrip_step, IH, Hc; done.
Qed.

Lemma rstrip_app_space s q : all_space q = true -> rstrip (s +:+ q) = rstrip s.
Proof.
  intros Hq. induction s as [|c s IH]; cbn [String.append].
  - by apply rstrip_all_space.
  - by rewrite !rstrip_step, IH.
Qed.

Lemma strip_app_space s q : all_space q = true -> str_strip (s +:+ q) = str_strip s.
Proof.
  intros Hq. unfold str_strip. induction s as [|c s IH]; cbn [String.append].
  - rewrite (rstrip_all_space (lstrip q)); [done|].
    clear -Hq. induction q as [|c q IH]; [done|]. cbn [all_space] in Hq.
    apply andb_true_iff in Hq as [Hc Hq]. cbn [lstrip]. rewrite Hc. by apply IH.
  - cbn [lstrip]. destruct (is_space c); [exact IH|].
    change (String c (s +:+ q)) with (String c s +:+ q). by apply rstrip_app_space.
Qed.

Lemma strip_padded pre text post :
  all_space pre = true -> all_space post = true ->
  str_strip (pre +:+ text +:+ post) = str_strip text.
Proof.
  intros Hpre Hpost. unfold str_strip at 1. rewrite lstrip_all_space by done.
  fold (str_strip (text +:+ post)). by apply strip_app_space.
Qed.

Lemma rstrip_app p u : is_empty (rstrip u) = false -> rstrip (p +:+ u) = p +:+ rstrip u.
Proof.
  intros Hu. induction p as [|a p IH]; [reflexivity|].
  cbn [String.append]. rewrite rstrip_step, IH.
  destruct p; cbn [String.append]; [|reflexivity]. by destruct (rstrip u).
Qed.


(** ** Letters and case *)

Lemma is_alpha_not_space c : is_alpha c = true -> is_space c = false.
Proof. ascii_cases c; vm_compute; congruence. Qed.

Lemma is_alpha_word c : is_alpha c = true -> is_word c = true.
Proof. unfold is_word. by intros ->. Qed.








Lemma title_from_nonempty b c s : is_empty (title_from b (String c s)) = false.
Proof. cbn [title_from]. by destruct (is_alpha c). Qed.


(** ** The name pattern on a lower-cased text *)











(** ** The name group *)

Lemma strip_letter c t : is_alpha c = true -> str_strip (String c t) = String c (rstrip t).
Proof.
  intros Hc%is_alpha_not_space. unfold str_strip. by rewrite lstrip_id, rstrip_cons.
Qed.

Lemma learned_nonempty text g :
  NAME_PAT_search text = Some g -> is_empty (str_title (str_strip g)) = false.
Proof.
  intros (c & t & -> & Hc & _)%NAME_PAT_search_shape.
  rewrite strip_letter by done. apply title_from_nonempty.
Qed.

Lemma name_tail_all t : forall last n,
  all_in_name_class t = true -> String.length t <= n -> ends_in_letter last t = true ->
  name_tail last n t = Some t.
Proof.
  induction t as [|c t IH]; intros last n Hall Hlen Hend.
  - cbn [ends_in_letter] in Hend. apply is_alpha_word in Hend.
    destruct n; cbn [name_tail head]; unfold word_boundary, word_at; by rewrite Hend.
  - cbn [all_in_name_class] in Hall. apply andb_true_iff in Hall as [Hc Hall].
    destruct n as [|n]; [simpl in Hlen; lia|].
    cbn [name_tail]. rewrite Hc, (IH c n); [reflexivity|done|simpl in Hlen; lia|done].
Qed.

Lemma rstrip_ends_letter t : forall last,
  ends_in_letter last t = true -> rstrip (String last t) = String last t.
Proof.
  induction t as [|c t IH]; intros last Hend.
  - cbn [ends_in_letter] in Hend. apply rstrip_cons. by apply is_alpha_not_space.
  - rewrite rstrip_step, (IH c Hend). reflexivity.
Qed.

Lemma match_my_name_is prev c t :
  match_name_at prev ("my name is " +:+ String c t)
  = if word_boundary prev (Some "m"%char) then
      match (if is_space c then lstrip t else String c t) with
      | String c' s7 =>
          if is_alpha c' then let? t' := name_tail c' 30 s7 in Some (String c' t') else None
      | EmptyString => None
      end
    else None.
Proof. reflexivity. Qed.

Lemma search_my_name_is c t :
  is_alpha c = true -> all_in_name_class t = true -> String.length t <= 30 ->
  ends_in_letter c t = true ->
  NAME_PAT_search ("my name is " +:+ String c t) = Some (String c t).
Proof.
  intros Hc Hall Hlen Hend. unfold NAME_PAT_search.
  change (search_from None ("my name is " +:+ String c t))
    with (match match_name_at None ("my name is " +:+ String c t) with
          | Some g => Some g
          | None => search_from (Some "m"%char) ("y name is " +:+ String c t)
          end).
  rewrite match_my_name_is. change (word_boundary None (Some "m"%char)) with true.
  cbv iota. rewrite (is_alpha_not_space c Hc), Hc, name_tail_all by done. reflexivity.
Qed.

(** ** Words inside words *)

Lemma startswith_prefix p q s : startswith s (p +:+ q) = true -> startswith s p = true.
Proof.
  revert s. induction p as [|a p IH]; intros s; [done|].
  destruct s as [|b s]; [done|]. cbn [String.append startswith].
  intros [-> Hs]%andb_true_iff. by apply IH.
Qed.

Lemma str_in_start sub s : startswith s sub = true -> str_in sub s = true.
Proof. intros Hs. destruct s; cbn [str_in]; by rewrite Hs. Qed.

Lemma startswith_suffix p q s : startswith s (p +:+ q) = true -> str_in q s = true.
Proof.
  revert s. induction p as [|a p IH]; intros s.
  - apply str_in_start.
  - destruct s as [|b s]; [done|]. cbn [String.append startswith].
    intros [_ Hs]%andb_true_iff. by apply str_in_cons, IH.
Qed.

Lemma str_in_part p q s :
  str_in (p +:+ q) s = true -> str_in p s = true /\ str_in q s = true.
Proof.
  induction s as [|b s IH]; cbn [str_in].
  - rewrite orb_false_r. intros Hs. split.
    + apply startswith_prefix in Hs. by rewrite Hs.
    + apply startswith_suffix in Hs. exact Hs.
  - intros [Hs|Hs]%orb_true_iff.
    + split; [apply startswith_prefix in Hs; by rewrite Hs|].
      apply startswith_suffix in Hs. exact Hs.
    + destruct (IH Hs) as [Hp Hq]. rewrite Hp. split; [apply orb_true_r|].
      by apply str_in_cons.
Qed.

(** X4: two words of the rules never decide.  A text that holds
    [thanks] holds [thank], and a text that holds [goodbye] holds [bye]:
    the thanks rule and the farewell rule answer the same texts without
    the longer words. *)
Theorem longer_words_never_decide s :
  any_in thanks_words s = any_in ["thank"; "ty"] s
  /\ any_in bye_words s = any_in ["bye"; "quit"; "exit"] s.
Proof.
  unfold any_in, thanks_words, bye_words. cbn [existsb]. split.
  - destruct (str_in "thanks" s) eqn:E; [|by rewrite !orb_false_r].
    apply (str_in_part "thank" "s") in E as [-> _]. reflexivity.
  - destruct (str_in "goodbye" s) eqn:E; [|reflexivity].
    apply (str_in_part "good" "bye") in E as [_ ->]. reflexivity.
Qed.


Section ReplyMore.
Context `{Host}.

Lemma respond_learns w text d g :
  NAME_PAT_search (str_strip text) = Some g ->
  respond w text (JDict d)
  = (Ok ("Nice to meet you, " +:+ str_title (str_strip g) +:+ "! " +:+ EMOJI "wave"),
     JDict (dict_set "name" (JStr (str_title (str_strip g))) d)).
Proof.
  intros Hg. pose proof (learned_nonempty _ _ Hg) as Hne.
  unfold respond. destruct (str_strip text) as [|c t] eqn:E; [discriminate|].
  cbn [is_empty]. unfold _remember_name. rewrite Hg. cbn [memory_setitem].
  by rewrite Hne.
Qed.



(** X5: white space around a message changes neither the reply nor what
    is remembered. *)
Theorem respond_ignores_padding w pre text post mem :
  all_space pre = true -> all_space post = true ->
  respond w (pre +:+ text +:+ post) mem = respond w text mem.
Proof. intros Hpre Hpost. unfold respond. by rewrite strip_padded. Qed.



(** X8: the name is everything that follows [my name is], not the
    first word of it.  A phrase of at most 31 letters, hyphens, apostrophes
    and white-space characters that starts and ends with a letter is taken
    whole, in title case. *)
Theorem name_takes_phrase w c t d :
  is_alpha c = true -> all_in_name_class t = true -> String.length t <= 30 ->
  ends_in_letter c t = true ->
  let name := str_title (String c t) in
  respond w ("my name is " +:+ String c t) (JDict d)
  = (Ok ("Nice to meet you, " +:+ name +:+ "! " +:+ EMOJI "wave"),
     JDict (dict_set "name" (JStr name) d)).
Proof.
  intros Hc Hall Hlen Hend name.
  pose proof (rstrip_ends_letter t c Hend) as Hr.
  assert (str_strip ("my name is " +:+ String c t) = "my name is " +:+ String c t) as Hs.
  { unfold str_strip.
    change (lstrip ("my name is " +:+ String c t)) with ("my name is " +:+ String c t).
    rewrite rstrip_app; rewrite Hr; reflexivity. }
  assert (str_strip (String c t) = String c t) as Hg.
  { unfold str_strip. by rewrite lstrip_id, Hr by (by apply is_alpha_not_space). }
  rewrite (respond_learns w _ d (String c t)), Hg; [reflexivity|].
  rewrite Hs. by apply search_my_name_is.
Qed.





End ReplyMore.

Lemma respond_ignores_padding_witness :
  respond (H := ArithHost.host) noon ("  " +:+ "Hello there" +:+ String "009" " ") initial_memory
  = respond (H := ArithHost.host) noon "Hello there" initial_memory.
Proof.
  apply (@respond_ignores_padding ArithHost.host noon "  " "Hello there" (String "009" " "));
    reflexivity.
Defined.



Lemma name_takes_phrase_witness :
  respond (H := ArithHost.host) noon "my name is Ada and I like cats" initial_memory
  = (Ok ("Nice to meet you, Ada And I Like Cats! " +:+ EMOJI "wave"),
     JDict [("name", JStr "Ada And I Like Cats"); ("history", JList [])]).
Proof.
  apply (@name_takes_phrase ArithHost.host noon "A" "da and I like cats"
           [("name", JNull); ("history", JList [])]);
    [reflexivity|reflexivity|simpl; lia|reflexivity].
Defined.





(** * Properties of the shell *)







Section ShellFacts.
Context `{Host}.



Section Invariant.
Variable good : json -> bool.
Hypothesis good_record : forall m, good m = true -> is_memory_record m = true.
Hypothesis good_name : forall m n m',
  good m = true -> memory_setitem "name" (JStr n) m = Ok m' -> good m' = true.
Hypothesis good_reset : forall m, good m = true -> good (snd (reset m)) = true.




End Invariant.










End ShellFacts.

(** X19: [reset] of any dict keeps the name entry and nothing else: the
    other keys are dropped and the history is emptied.  Doing it twice is
    doing it once, and the result is a Memory Record exactly when the name
    is absent or a string. *)
Theorem reset_normalises d :
  let name := default JNull (dict_get "name" d) in
  let mem' := JDict [("name", name); ("history", JList [])] in
  reset (JDict d) = (Ok "Okay, I cleared the chat history but kept your name.", mem')
  /\ reset mem' = reset (JDict d)
  /\ is_memory_record mem' = is_opt_str name.
Proof.
  intros name mem'. split; [reflexivity|]. split; [reflexivity|].
  subst mem'. cbn. destruct (is_opt_str name); reflexivity.
Qed.






